(** * steal-tools: the multi-bundle build and its configuration emitter

    A shallow embedding of
    - [lib/build/multi.js] (the bundled build pipeline),
    - [lib/bundle/make_bundles_config.js] (the emitter of the
      [System.bundles] configuration node), and
    - [lib/build/helpers/cjs.js] (the [ignore] helper),
    together with the properties the specification states about them. *)

From Stdlib Require Import ZArith NArith Ascii String List Lia Permutation Sorted.
From stdpp Require Import base option list gmap strings.

Local Open Scope Z_scope.

(** ** JavaScript values

    The configuration fields read by the build ([bundleDepth],
    [bundlesPath], [bundleSteal], [minify], [metadata.format]) are
    dynamically typed.  Numbers are the integers (the only numbers the
    build options are documented to take). *)

Inductive jsval : Type :=
| JUndefined
| JNull
| JBool (b : bool)
| JNum (n : Z)
| JStr (s : string).

#[global] Instance jsval_eq_dec : EqDecision jsval.
Proof. solve_decision. Defined.

Definition jsval_eqb (a b : jsval) : bool :=
  match a, b with
  | JUndefined, JUndefined => true
  | JNull, JNull => true
  | JBool x, JBool y => Bool.eqb x y
  | JNum x, JNum y => Z.eqb x y
  | JStr x, JStr y => String.eqb x y
  | _, _ => false
  end.

(** [ToBoolean]. *)
Definition truthy (v : jsval) : bool :=
  match v with
  | JUndefined | JNull => false
  | JBool b => b
  | JNum n => negb (Z.eqb n 0)
  | JStr s => negb (String.eqb s "")
  end.

(** [a || b]: the left operand when it is truthy, the right one otherwise. *)
Definition js_or (a b : jsval) : jsval := if truthy a then a else b.

(** [a === b] on the values above. *)
Definition strict_equal (a b : jsval) : bool := jsval_eqb a b.

(** [a !== b]. *)
Definition strict_not_equal (a b : jsval) : bool := negb (jsval_eqb a b).

(** ** Strings

    A JavaScript string is modelled by a Rocq string, each character
    standing for the code unit of the same number. *)

Definition dquote : string := String "034"%char EmptyString.
Definition bslash : string := String "092"%char EmptyString.
Definition newline : string := String "010"%char EmptyString.

Fixpoint prefixb (p s : string) : bool :=
  match p, s with
  | EmptyString, _ => true
  | String a p', String b s' => Ascii.eqb a b && prefixb p' s'
  | String _ _, EmptyString => false
  end.

(** [s.indexOf(sub)], counted from position [from]; [-1] when [sub] does
    not occur. *)
Fixpoint indexOf_from (from : Z) (sub s : string) : Z :=
  if prefixb sub s then from
  else match s with
       | EmptyString => -1
       | String _ s' => indexOf_from (from + 1) sub s'
       end.

Definition indexOf (s sub : string) : Z := indexOf_from 0 sub s.

(** [util.format(template, args...)] for the directives the build uses:
    [%s] consumes the next argument (left as it is when none remains) and
    [%%] is a percent sign. *)
Fixpoint util_format (template : string) (args : list string) : string :=
  match template with
  | String "%" (String "s" rest) =>
      match args with
      | a :: args' => a +:+ util_format rest args'
      | [] => "%s" +:+ util_format rest []
      end
  | String "%" (String "%" rest) => "%" +:+ util_format rest args
  | String c rest => String c (util_format rest args)
  | EmptyString => EmptyString
  end.

(** ** Plain objects used as maps

    The own enumerable string-keyed properties of an object literal [{}],
    in creation order.  Assigning to an existing key keeps its position;
    assigning to the key [__proto__] calls the inherited setter and creates
    no own property. *)

Module JsObject.
Section WithValues.
Context {V : Type}.

Definition t : Type := list (string * V).

Definition empty : t := [].

Fixpoint define (k : string) (v : V) (o : t) : t :=
match o with
| [] => [(k, v)]
| (k', v') :: o' =>
    if String.eqb k k' then (k, v) :: o' else (k', v') :: define k v o'
end.

(** [o[k] = v] *)
Definition set (k : string) (v : V) (o : t) : t :=
if String.eqb k "__proto__" then o else define k v o.

(** [o[k]] restricted to own properties *)
Fixpoint get (k : string) (o : t) : option V :=
match o with
| [] => None
| (k', v') :: o' => if String.eqb k k' then Some v' else get k o'
end.

Definition keys (o : t) : list string := map fst o.

(** Array indices: canonical decimal numerals up to [2^32 - 2]. *)
Definition digit (c : ascii) : option N :=
let n := N_of_ascii c in
if ((48 <=? n) && (n <=? 57))%N then Some (n - 48)%N else None.

Fixpoint numeral (s : string) (acc : N) : option N :=
match s with
| EmptyString => Some acc
| String c s' =>
    match digit c with
    | Some d => numeral s' (10 * acc + d)%N
    | None => None
    end
end.

Definition array_index (k : string) : option N :=
match k with
| EmptyString => None
| String "0" (String _ _) => None
| _ => match numeral k 0%N with
       | Some n => if (n <=? 4294967294)%N then Some n else None
       | None => None
       end
end.

Fixpoint insert_index (e : N * (string * V)) (l : list (N * (string * V)))
: list (N * (string * V)) :=
match l with
| [] => [e]
| e' :: l' => if (fst e <=? fst e')%N then e :: l else e' :: insert_index e l'
end.

Definition indexed (o : t) : list (N * (string * V)) :=
omap (fun kv => match array_index (fst kv) with
                | Some n => Some (n, kv)
                | None => None
                end) o.

Definition named (o : list (string * V)) : list (string * V) :=
filter (fun kv => array_index (fst kv) = None) o.

(** The order in which [JSON.stringify], [Object.keys] and [for in]
  visit the own properties: array indices in ascending numeric order,
  then the other keys in creation order. *)
Definition enumerate (o : t) : t :=
map snd (fold_right insert_index [] (indexed o)) ++ named o.
End WithValues.
Global Arguments t : clear implicits.
End JsObject.

(** ** [JSON.stringify] on a map from names to arrays of strings *)

Module JSON.
Definition hex_digit (n : N) : string :=
  String.substring (N.to_nat n) 1 "0123456789abcdef".

(** The escape of one code unit inside a quoted JSON string. *)
Definition escape (c : ascii) : string :=
  let n := N_of_ascii c in
  if (n =? 34)%N then bslash +:+ dquote
  else if (n =? 92)%N then bslash +:+ bslash
  else if (n =? 8)%N then bslash +:+ "b"
  else if (n =? 12)%N then bslash +:+ "f"
  else if (n =? 10)%N then bslash +:+ "n"
  else if (n =? 13)%N then bslash +:+ "r"
  else if (n =? 9)%N then bslash +:+ "t"
  else if (n <? 32)%N then
    bslash +:+ "u00" +:+ hex_digit (n / 16) +:+ hex_digit (n mod 16)
  else String c EmptyString.

Fixpoint escape_string (s : string) : string :=
  match s with
  | EmptyString => EmptyString
  | String c s' => escape c +:+ escape_string s'
  end.

Definition quote (s : string) : string :=
  dquote +:+ escape_string s +:+ dquote.

Fixpoint join (sep : string) (l : list string) : string :=
  match l with
  | [] => EmptyString
  | [x] => x
  | x :: l' => x +:+ sep +:+ join sep l'
  end.

Definition array (l : list string) : string :=
  "[" +:+ join "," (map quote l) +:+ "]".

Definition member (kv : string * list string) : string :=
  quote (fst kv) +:+ ":" +:+ array (snd kv).

(** [JSON.stringify(o)] for an object whose values are arrays of strings. *)
Definition stringify (o : JsObject.t (list string)) : string :=
  "{" +:+ join "," (map member (JsObject.enumerate o)) +:+ "}".
End JSON.

(** ** The data model of the build

    [Load] is the part of an ES6 load record the build reads; [Node] wraps
    a load with what the build tools write; a [Bundle] is a bundle graph
    [{size, nodes, bundles}] that later receives a name and a build type.
    Fields that an object literal of the source leaves out are [None]. *)

Module Load.
Record t : Type := mk { name : string; source : option string }.
End Load.

Module Node.
Record t : Type := mk {
  load : Load.t;
  minifiedSource : option string;
  dependencies : option (list string);
  bundles : option (list string);
  order : option Z
}.
End Node.

Inductive BuildType : Type := js | css.

Module Bundle.
Record t : Type := mk {
  nodes : list Node.t;
  bundles : list string;
  name : option string;
  size : option N;
  buildType : option BuildType
}.
End Bundle.

Module Loader.
Record t : Type := mk {
  baseURL : string;
  main : string;
  bundle : option (list string);
  bundlesPath : jsval
}.
End Loader.

Module Options.
Record t : Type := mk { minify : jsval; bundleSteal : jsval }.
End Options.

(** The object built by [makeConfiguration]: the loader, the build options
    and the URL of the directory the bundles are written to. *)
Module Configuration.
Record t : Type := mk {
  loader : Loader.t;
  options : Options.t;
  bundlesPathURL : string
}.
End Configuration.

(** ** [lib/bundle/make_bundles_config.js] *)

Definition paths_template : string :=
  "System.paths[" +:+ dquote +:+ "bundles/*.css" +:+ dquote +:+ "] ="
    +:+ dquote +:+ "%s/*css" +:+ dquote +:+ ";" +:+ newline +:+
  "System.paths[" +:+ dquote +:+ "bundles/*" +:+ dquote +:+ "] = "
    +:+ dquote +:+ "%s/*.js" +:+ dquote +:+ ";" +:+ newline.

(** Get the [System.paths] needed to map bundles, if a different
    [bundlesPath] is provided. *)
Definition getBundlesPaths (configuration : Configuration.t) : string :=
  if negb (truthy (Loader.bundlesPath (Configuration.loader configuration)))
  then ""
  else
    let bundlesPath := Configuration.bundlesPathURL configuration in
    util_format paths_template [bundlesPath; bundlesPath].

(** [bundles.slice(0)]: a new array with the same elements. *)
Definition slice0 {A : Type} (l : list A) : list A := l.

(** [a.shift()]: what is left of the array once its first element is
    removed; an empty array stays empty. *)
Definition shift {A : Type} (l : list A) : list A := tl l.

(** The property key a bundle is filed under: its name turned into a
    string. *)
Definition property_key (b : Bundle.t) : string :=
  match Bundle.name b with
  | Some s => s
  | None => "undefined"
  end.

(** [bundle.nodes.map(function(node){ return node.load.name; })] *)
Definition moduleNames (b : Bundle.t) : list string :=
  map (fun node => Load.name (Node.load node)) (Bundle.nodes b).

(** The bundles that are written to the manifest. *)
Definition bundledBundles (bundles : list Bundle.t)
    (configuration : Configuration.t) : list Bundle.t :=
  let bundledBundles := slice0 bundles in
  if truthy (Options.bundleSteal (Configuration.options configuration))
  then shift bundledBundles
  else bundledBundles.

(** [bundledBundles.forEach(function(bundle){ bundlesConfig[bundle.name] = ... })]
    starting from [bundlesConfig = {}]. *)
Definition fill_bundlesConfig (included : list Bundle.t)
    (bundlesConfig : JsObject.t (list string)) : JsObject.t (list string) :=
  fold_left (fun o bundle => JsObject.set (property_key bundle) (moduleNames bundle) o)
            included bundlesConfig.

Definition bundlesConfig (bundles : list Bundle.t)
    (configuration : Configuration.t) : JsObject.t (list string) :=
  fill_bundlesConfig (bundledBundles bundles configuration) JsObject.empty.

Definition make_bundles_config (bundles : list Bundle.t)
    (configuration : Configuration.t) : Node.t :=
  let paths := getBundlesPaths configuration in
  let bundlesConfig := bundlesConfig bundles configuration in
  {| Node.load := {| Load.name := "[system-bundles-config]"; Load.source := None |};
     Node.minifiedSource :=
       Some (paths +:+ "System.bundles = " +:+ JSON.stringify bundlesConfig +:+ ";");
     Node.dependencies := None;
     Node.bundles := None;
     Node.order := None |}.

(** *** The same function on a store of arrays

    Arrays are mutable objects reached through references.  The store maps
    a reference to the elements of the array it denotes; the emitter is
    given the reference of the caller's bundle list. *)

Module Heap.
Abbreviation ref := positive.
Abbreviation t := (gmap positive (list Bundle.t)).

(** A computation on the store that may fail on a dangling reference. *)
Definition M (A : Type) : Type := t -> option (A * t).

Definition ret {A : Type} (a : A) : M A := fun h => Some (a, h).
Definition bind {A B : Type} (m : M A) (k : A -> M B) : M B :=
  fun h => match m h with
           | Some (a, h') => k a h'
           | None => None
           end.

Definition read (r : ref) : M (list Bundle.t) :=
  fun h => match h !! r with
           | Some l => Some (l, h)
           | None => None
           end.

Definition alloc (l : list Bundle.t) : M ref :=
  fun h => let r := fresh (dom h) in Some (r, <[r := l]> h).

(** [a.slice(0)] *)
Definition slice0 (r : ref) : M ref :=
  bind (read r) (fun l => alloc (slice0 l)).

(** [a.shift()]: removes the first element of the array [r] in place. *)
Definition shift (r : ref) : M (option Bundle.t) :=
  fun h => match h !! r with
           | Some l => Some (head l, <[r := shift l]> h)
           | None => None
           end.
End Heap.

#[global] Instance heap_ret : MRet Heap.M := @Heap.ret.
#[global] Instance heap_bind : MBind Heap.M := fun A B k m => Heap.bind m k.

Definition make_bundles_config_heap (bundles : Heap.ref)
    (configuration : Configuration.t) : Heap.M Node.t :=
  let paths := getBundlesPaths configuration in
  bundledBundles ← Heap.slice0 bundles;
  _ ← (if truthy (Options.bundleSteal (Configuration.options configuration))
       then Heap.shift bundledBundles
       else mret None);
  included ← Heap.read bundledBundles;
  let bundlesConfig := fill_bundlesConfig included JsObject.empty in
  mret
    {| Node.load := {| Load.name := "[system-bundles-config]"; Load.source := None |};
       Node.minifiedSource :=
         Some (paths +:+ "System.bundles = " +:+ JSON.stringify bundlesConfig +:+ ";");
       Node.dependencies := None;
       Node.bundles := None;
       Node.order := None |}.

(** ** [lib/build/helpers/cjs.js]: the [ignore] helper *)

Module Cjs.
Module Metadata.
Record t : Type := mk { format : jsval }.
End Metadata.

(** The fields of the load record the helper reads. *)
Module Load.
Record t : Type := mk { address : string; metadata : Metadata.t }.
End Load.

(** An ignore predicate: called with the module name and its load, it
    answers with a JavaScript value that the build tests for truth. *)
Definition predicate : Type := string -> Load.t -> jsval.

(** The argument [additional] of [ignore]: left out (or any falsy value),
    one predicate, or an array of predicates. *)
Inductive additional : Type :=
| Omitted
| Single (p : predicate)
| Several (ps : list predicate).

(** [function(name, load){ if(...) { return true }; }] *)
Definition ignore_node_modules : predicate :=
  fun name load =>
    if (0 <=? indexOf (Load.address load) "/node_modules/")
       || strict_equal (Metadata.format (Load.metadata load)) (JStr "defined")
    then JBool true
    else JUndefined.

(** What [concat] is given: an array, or a value that is not an array. *)
Inductive concat_arg : Type :=
| Value (p : predicate)
| Array (ps : list predicate).

(** [additional || []] *)
Definition additional_or_empty (a : additional) : concat_arg :=
  match a with
  | Omitted => Array []
  | Single p => Value p
  | Several ps => Array ps
  end.

(** [l.concat(v)]: an array argument is spread, any other value is
    appended as one element. *)
Definition concat (l : list predicate) (v : concat_arg) : list predicate :=
  match v with
  | Value p => l ++ [p]
  | Array ps => l ++ ps
  end.

Definition ignore (a : additional) : list predicate :=
  concat [ignore_node_modules] (additional_or_empty a).
End Cjs.

(** ** [lib/build/multi.js]: the bundled build

    The modules the build requires are not part of this development; they
    enter as the fields of [Collaborators].  A collaborator either returns
    or throws; objects it mutates in place (the dependency graph, a bundle)
    are returned in their new state.  Every call is recorded in a trace. *)

(** What is thrown, or rejects a promise: an error object raised by a
    collaborator, the [TypeError] of reading a property of [undefined] or
    of [null], or a value that is not an object ([throw undefined],
    [reject(null)], a thrown string). *)
Inductive Error : Type :=
| Raised (message stack : string)
| TypeError_undefined (property : string)
| TypeError_null (property : string)
| Thrown (v : jsval).

Inductive Completion (A : Type) : Type :=
| Normal (a : A)
| Throw (e : Error).
Global Arguments Normal {A} a.
Global Arguments Throw {A} e.

(** The state a promise settles in. *)
Inductive Promise (A : Type) : Type :=
| Resolved (a : A)
| Rejected (e : Error).
Global Arguments Resolved {A} a.
Global Arguments Rejected {A} e.

Definition Graph : Type := JsObject.t Node.t.

(** The [config] argument of the build. *)
Module Config.
Record t : Type := mk { bundleDepth : jsval; system : list (string * jsval) }.
End Config.

(** The [options] argument as the caller passes it: a property that is
    left out is [None]. *)
Module RawOptions.
Record t : Type := mk { minify : option jsval; bundleSteal : option jsval }.
End RawOptions.

(** What [makeBundleGraph] resolves with. *)
Module Data.
Record t : Type := mk { graph : Graph; loader : Loader.t; buildLoader : Loader.t }.
End Data.

Inductive Call : Type :=
| CallLoggingSetup
| CallMakeBundleGraph
| CallHasES6
| CallMakeConfiguration
| CallPluck (moduleName : string)
| CallOrder (moduleName : string)
| CallTranspile
| CallMinifyGraph
| CallPluckOnlyInBundle
| CallMakeBundle
| CallFlattenBundle (maxDepth : jsval)
| CallSplitByBuildType
| CallNameBundle
| CallMakeBundlesConfig
| CallAddStealToBundle
| CallAddTraceurRuntime
| CallWriteBundles.

#[global] Instance Call_eq_dec : EqDecision Call.
Proof. solve_decision. Defined.

Inductive LogEntry : Type :=
| LogInfo (message : string)
| LogError (e : Error).

Module World.
Record t : Type := mk { trace : list Call; winston : list LogEntry }.
Definition init : t := {| trace := []; winston := [] |}.
End World.

Record Collaborators : Type := {
  logging_setup : Options.t -> Completion unit;
  makeBundleGraph : Config.t -> Completion (Promise Data.t);
  hasES6 : Graph -> Completion bool;
  makeConfiguration : Loader.t -> Loader.t -> Options.t -> Completion Configuration.t;
  pluck : Graph -> string -> Completion (list Node.t * Graph);
  order : Graph -> string -> Completion Graph;
  transpile : Graph -> string -> Completion Graph;
  (** [minifyGraph] applied to the dependency graph ... *)
  minifyGraph : Graph -> Completion Graph;
  (** ... and to an array of nodes. *)
  minifyGraph_array : list Node.t -> Completion (list Node.t);
  pluckOnlyInBundle : Graph -> string -> Completion Graph;
  makeBundle : Graph -> Completion (list Bundle.t * Graph);
  flattenBundle : list Bundle.t -> jsval -> Completion (list Bundle.t);
  splitByBuildType : list Bundle.t -> Completion (list Bundle.t);
  nameBundle : Bundle.t -> Completion Bundle.t;
  addStealToBundle : Bundle.t -> string -> Completion Bundle.t;
  addTraceurRuntime : Bundle.t -> Completion Bundle.t;
  writeBundles : list Bundle.t -> Configuration.t -> Completion (Promise jsval)
}.

(** Computations of the build: a completion and the world it leaves. *)
Definition M (A : Type) : Type := World.t -> Completion A * World.t.

#[global] Instance M_ret : MRet M := fun A a w => (Normal a, w).
#[global] Instance M_bind : MBind M := fun A B k m w =>
  match m w with
  | (Normal a, w') => k a w'
  | (Throw e, w') => (Throw e, w')
  end.

Definition throw {A : Type} (e : Error) : M A := fun w => (Throw e, w).

(** Calling a collaborator: the call is recorded, then it completes. *)
Definition call {A : Type} (c : Call) (r : Completion A) : M A :=
  fun w => (r, {| World.trace := World.trace w ++ [c]; World.winston := World.winston w |}).

Definition winston_log (entry : LogEntry) : M unit :=
  fun w => (Normal tt, {| World.trace := World.trace w;
                          World.winston := World.winston w ++ [entry] |}).

(** [l.forEach(f)] for an [f] that updates a state [s]. *)
Fixpoint forEach {A S : Type} (f : S -> A -> M S) (l : list A) (s : S) : M S :=
  match l with
  | [] => mret s
  | x :: l' => s' ← f s x; forEach f l' s'
  end.

(** [l.forEach(f)] for an [f] that mutates the element it is given. *)
Fixpoint forEach_element {A : Type} (f : A -> M A) (l : list A) : M (list A) :=
  match l with
  | [] => mret []
  | x :: l' => x' ← f x; l'' ← forEach_element f l'; mret (x' :: l'')
  end.

(** [p.then(f)]: the callback runs when [p] is resolved; the promise it
    returns, or the error it throws, settles the result. *)
Definition promise_then {A B : Type} (p : Promise A) (f : A -> M (Promise B))
  : M (Promise B) :=
  match p with
  | Resolved a => fun w =>
      match f a w with
      | (Normal q, w') => (Normal q, w')
      | (Throw e, w') => (Normal (Rejected e), w')
      end
  | Rejected e => mret (Rejected e)
  end.

(** [p.catch(f)]: the handler runs when [p] is rejected; the value it
    returns resolves the result. *)
Definition promise_catch {A : Type} (p : Promise A) (f : Error -> M A)
  : M (Promise A) :=
  match p with
  | Resolved a => mret (Resolved a)
  | Rejected e => fun w =>
      match f e w with
      | (Normal a, w') => (Normal (Resolved a), w')
      | (Throw e', w') => (Normal (Rejected e'), w')
      end
  end.

(** [_.assign({minify: true, bundleSteal: false}, options)] *)
Definition assign_defaults (options : option RawOptions.t) : Options.t :=
  match options with
  | None => {| Options.minify := JBool true; Options.bundleSteal := JBool false |}
  | Some o =>
      {| Options.minify := default (JBool true) (RawOptions.minify o);
         Options.bundleSteal := default (JBool false) (RawOptions.bundleSteal o) |}
  end.

Section Build.
Context (K : Collaborators).

(** [config.bundleDepth || 3] *)
Definition maxDepth (config : Config.t) : jsval :=
  js_or (Config.bundleDepth config) (JNum 3).

(** [(data.loader.bundle || []).forEach(function(moduleName){ order(dependencyGraph, moduleName); })] *)
Definition order_bundles (data : Data.t) (dependencyGraph : Graph) : M Graph :=
  forEach (fun g moduleName => call (CallOrder moduleName) (order K g moduleName))
          (default [] (Loader.bundle (Data.loader data))) dependencyGraph.

(** [masterJS.nodes.unshift(configNode)] *)
Definition unshift_node (configNode : Node.t) (b : Bundle.t) : Bundle.t :=
  {| Bundle.nodes := configNode :: Bundle.nodes b;
     Bundle.bundles := Bundle.bundles b;
     Bundle.name := Bundle.name b;
     Bundle.size := Bundle.size b;
     Bundle.buildType := Bundle.buildType b |}.

(** From [splitByBuildType(bundles)] to [splitBundles.forEach(nameBundle)].
    The result is [splitMaster] as [splitByBuildType] returned it and
    [splitBundles] with the master bundles in front and every bundle
    named. *)
Definition split_and_name (bundles : list Bundle.t) (masterBundle : Bundle.t)
  : M (list Bundle.t * list Bundle.t) :=
  splitBundles ← call CallSplitByBuildType (splitByBuildType K bundles);
  splitMaster ← call CallSplitByBuildType (splitByBuildType K [masterBundle]);
  (* splitBundles.unshift.apply( splitBundles, splitMaster ) *)
  let splitBundles := splitMaster ++ splitBundles in
  splitBundles ← forEach_element (fun b => call CallNameBundle (nameBundle K b))
                                 splitBundles;
  mret (splitMaster, splitBundles).

(** From [makeBundle] to [splitBundles.forEach(nameBundle)]. *)
Definition make_named_bundles (config : Config.t) (dependencyGraph : Graph)
    (masterBundle : Bundle.t) : M (list Bundle.t * list Bundle.t) :=
  '(bundles, _) ← call CallMakeBundle (makeBundle K dependencyGraph);
  bundles ← call (CallFlattenBundle (maxDepth config))
                 (flattenBundle K bundles (maxDepth config));
  split_and_name bundles masterBundle.

(** The callback given to [makeBundleGraph(config).then]. *)
Definition build (config : Config.t) (options : Options.t) (minify : bool)
    (data : Data.t) : M (Promise jsval) :=
  let dependencyGraph := Data.graph data in
  let main := Loader.main (Data.loader data) in
  hasES6modules ← call CallHasES6 (hasES6 K dependencyGraph);
  configuration ← call CallMakeConfiguration
    (makeConfiguration K (Data.loader data) (Data.buildLoader data) options);
  '(stealconfig, dependencyGraph) ←
    call (CallPluck "@config") (pluck K dependencyGraph "@config");
  '(_, dependencyGraph) ← call (CallPluck "@dev") (pluck K dependencyGraph "@dev");
  dependencyGraph ← order_bundles data dependencyGraph;
  dependencyGraph ← call CallTranspile (transpile K dependencyGraph "amd");
  dependencyGraph ← (if minify
                     then call CallMinifyGraph (minifyGraph K dependencyGraph)
                     else mret dependencyGraph);
  '(mainNodes, dependencyGraph) ← call (CallPluck main) (pluck K dependencyGraph main);
  let stealConfigAndMain := stealconfig ++ mainNodes in
  dependencyGraph ← call CallPluckOnlyInBundle (pluckOnlyInBundle K dependencyGraph main);
  _ ← (if minify then winston_log (LogInfo "Minifying...") else mret tt);
  masterNodes ← (if minify
                 then call CallMinifyGraph (minifyGraph_array K stealConfigAndMain)
                 else mret stealConfigAndMain);
  let masterBundle :=
    {| Bundle.nodes := masterNodes; Bundle.bundles := [main];
       Bundle.name := None; Bundle.size := None; Bundle.buildType := None |} in
  '(splitMaster, splitBundles) ← make_named_bundles config dependencyGraph masterBundle;
  configNode ← call CallMakeBundlesConfig
    (Normal (make_bundles_config splitBundles configuration));
  (* masterJS is splitMaster[0], the object that is now first in splitBundles *)
  match splitMaster, splitBundles with
  | _ :: _, masterJS :: others =>
      let masterJS := unshift_node configNode masterJS in
      masterJS ← (if truthy (Options.bundleSteal options)
                  then call CallAddStealToBundle (addStealToBundle K masterJS main)
                  else mret masterJS);
      masterJS ← (if hasES6modules : bool
                  then call CallAddTraceurRuntime (addTraceurRuntime K masterJS)
                  else mret masterJS);
      call CallWriteBundles (writeBundles K (masterJS :: others) configuration)
  | _, _ => throw (TypeError_undefined "nodes")
  end.

(** [e] is [undefined] or [null]. *)
Definition nullish (e : Error) : bool :=
  match e with
  | Thrown JUndefined | Thrown JNull => true
  | _ => false
  end.

(** The [TypeError] of [e.message] for a nullish [e]. *)
Definition reading_message (e : Error) : Error :=
  match e with
  | Thrown JNull => TypeError_null "message"
  | _ => TypeError_undefined "message"
  end.

(** [function(e){ winston.error(e.message, e.stack); }]: reading
    [e.message] throws when [e] is [undefined] or [null], before anything
    is logged; of any other value the two properties are read (they are
    [undefined] when [e] has none) and the entry is written. *)
Definition log_error (e : Error) : M jsval :=
  if nullish e
  then throw (reading_message e)
  else _ ← winston_log (LogError e); mret JUndefined.

(** [makeBundleGraph(config).then(...)], before the [catch]. *)
Definition build_chain (config : Config.t) (options : Options.t) (minify : bool)
  : M (Promise jsval) :=
  graphReady ← call CallMakeBundleGraph (makeBundleGraph K config);
  promise_then graphReady (build config options minify).

(** [module.exports = function(config, options){ ... }] *)
Definition multi (config : Config.t) (options : option RawOptions.t)
  : M (Promise jsval) :=
  let options := assign_defaults options in
  _ ← call CallLoggingSetup (logging_setup K options);
  let minify := strict_not_equal (Options.minify options) (JBool false) in
  built ← build_chain config options minify;
  promise_catch built log_error.
End Build.

(** ** The most-shared-subset extractor

    [lib/bundle/make_bundle.js] is not among the sources; the definitions
    of this module follow section 4.3 of the specification.  The graph is
    visited in the order in which the keys of the graph object are
    enumerated. *)

Module Extractor.
(** Modelled from the spec: the entry-point set of a node, the set of the
    entry-point-bundle names that require it ([node.bundles]). *)
Definition entry_points (n : Node.t) : gset string :=
  list_to_set (default [] (Node.bundles n)).

(** Modelled from the spec: the size of a node, the byte size of its
    minified source. *)
Definition node_size (n : Node.t) : N :=
  N.of_nat (String.length (default EmptyString (Node.minifiedSource n))).

(** Modelled from the spec: the group of the nodes whose entry-point set is
    exactly [k] (step 1 of [makeBundle]). *)
Definition group (k : gset string) (ns : list (string * Node.t))
  : list (string * Node.t) :=
  filter (fun kv => entry_points (snd kv) = k) ns.

(** Modelled from the spec: the graph once the group of [k] is removed
    (step 4 of [makeBundle]). *)
Definition without (k : gset string) (ns : list (string * Node.t))
  : list (string * Node.t) :=
  filter (fun kv => entry_points (snd kv) ≠ k) ns.

(** Modelled from the spec: the aggregate size of the nodes of a group. *)
Definition aggregate_size (ns : list (string * Node.t)) : N :=
  foldr (fun kv acc => (node_size (snd kv) + acc)%N) 0%N ns.

(** Modelled from the spec: the number of entry points of a set. *)
Definition cardinality (k : gset string) : N := N.of_nat (size k).

(** Modelled from the spec: the value of a group, the number of its entry
    points times the aggregate size of its nodes (step 2 of [makeBundle]). *)
Definition value (k : gset string) (ns : list (string * Node.t)) : N :=
  (cardinality k * aggregate_size (group k ns))%N.

(** Modelled from the spec: the group of [k] is strictly preferred to the
    group of [best]: its value is larger or, the values being equal, its
    entry-point set is larger or, these being equal too, its aggregate size
    is larger (step 3 of [makeBundle]). *)
Definition better (k best : gset string) (ns : list (string * Node.t)) : bool :=
  let a := aggregate_size (group k ns) in
  let a' := aggregate_size (group best ns) in
  ((value best ns <? value k ns)
   || ((value k ns =? value best ns)
       && ((cardinality best <? cardinality k)
           || ((cardinality k =? cardinality best) && (a' <? a)))))%N.

(** Modelled from the spec: the selection of step 3 of [makeBundle]; among
    equally preferred groups the one met first is kept. *)
Fixpoint most_shared (candidates : list (gset string)) (best : gset string)
    (ns : list (string * Node.t)) : gset string :=
  match candidates with
  | [] => best
  | k :: ks => most_shared ks (if better k best ns then k else best) ns
  end.

(** Modelled from the spec: the bundle made of the group of [k]: its nodes
    in graph order, its entry-point set and its size. *)
Definition bundle_of (k : gset string) (ns : list (string * Node.t)) : Bundle.t :=
  {| Bundle.nodes := map snd (group k ns);
     Bundle.bundles := elements k;
     Bundle.name := None;
     Bundle.size := Some (aggregate_size (group k ns));
     Bundle.buildType := None |}.

(** Modelled from the spec: one round of [makeBundle], the most shared
    group as a bundle and the nodes that remain. *)
Definition extract_one (ns : list (string * Node.t))
  : option (Bundle.t * list (string * Node.t)) :=
  match ns with
  | [] => None
  | kv :: _ =>
      let k := most_shared (map (fun kv => entry_points (snd kv)) ns)
                           (entry_points (snd kv)) ns in
      Some (bundle_of k ns, without k ns)
  end.

(** Modelled from the spec: the rounds of [makeBundle], repeated until no
    node remains (step 5), at most [fuel] times. *)
Fixpoint extract (fuel : nat) (ns : list (string * Node.t))
  : list Bundle.t * list (string * Node.t) :=
  match fuel with
  | O => ([], ns)
  | S fuel' =>
      match extract_one ns with
      | None => ([], ns)
      | Some (b, rest) =>
          let (bs, left) := extract fuel' rest in (b :: bs, left)
      end
  end.

(** Modelled from the spec: [makeBundle] of [lib/bundle/make_bundle.js],
    the most-shared-subset extractor.  It returns the bundles of a graph
    and leaves the graph without the nodes it has taken.  One round per
    node is enough, since a round takes at least one node. *)
Definition makeBundle (dependencyGraph : Graph) : list Bundle.t * Graph :=
  extract (length dependencyGraph) (JsObject.enumerate dependencyGraph).
End Extractor.

(** ** Notions used in the statements *)

(** [sub] occurs in [s]. *)
Definition occurs (sub s : string) : Prop :=
  exists pre post, s = pre +:+ sub +:+ post.

Module CjsFacts.
(** The predicates the caller supplied, in the order given. *)
Definition supplied (a : Cjs.additional) : list Cjs.predicate :=
  match a with
  | Cjs.Omitted => []
  | Cjs.Single p => [p]
  | Cjs.Several ps => ps
  end.
End CjsFacts.

(** The two [System.paths] statements for the bundles directory [url]. *)
Definition paths_statements (url : string) : string :=
  "System.paths[" +:+ dquote +:+ "bundles/*.css" +:+ dquote +:+ "] ="
    +:+ dquote +:+ url +:+ "/*css" +:+ dquote +:+ ";" +:+ newline +:+
  "System.paths[" +:+ dquote +:+ "bundles/*" +:+ dquote +:+ "] = "
    +:+ dquote +:+ url +:+ "/*.js" +:+ dquote +:+ ";" +:+ newline.

(** The manifest entry of a bundle. *)
Definition manifest_entry (b : Bundle.t) : string * list string :=
  (property_key b, moduleNames b).

(** The seven stages of the pipeline, numbered in the order the
    specification gives them: graph construction, order assignment,
    extraction, flattening, splitting by build type, naming and the
    emission of the configuration.  The other calls belong to no stage. *)
Definition stage_rank (c : Call) : option nat :=
  match c with
  | CallMakeBundleGraph => Some 0%nat
  | CallOrder _ => Some 1%nat
  | CallMakeBundle => Some 2%nat
  | CallFlattenBundle _ => Some 3%nat
  | CallSplitByBuildType => Some 4%nat
  | CallNameBundle => Some 5%nat
  | CallMakeBundlesConfig => Some 6%nat
  | _ => None
  end.

Definition stages (cs : list Call) : list nat := omap stage_rank cs.

(** [options.minify !== false] once the defaults are assigned. *)
Definition minify_of (options : option RawOptions.t) : bool :=
  strict_not_equal (Options.minify (assign_defaults options)) (JBool false).





(** The world once a collaborator has been called. *)
Definition called (c : Call) (w : World.t) : World.t :=
  {| World.trace := World.trace w ++ [c]; World.winston := World.winston w |}.

(** The world once an entry has been written to the log. *)
Definition logged (entry : LogEntry) (w : World.t) : World.t :=
  {| World.trace := World.trace w; World.winston := World.winston w ++ [entry] |}.

(** ** Identical graphs

    What two graphs agree on when the extractor cannot tell them apart:
    the same nodes (the same keys and load records, enumerated in the same
    order), the same entry-point set for each node and the same size for
    each node.  Bundles are compared likewise, and by their entry-point
    sets, names, sizes and build types. *)

Module Observed.







End Observed.

(** How far a run has come: the stage calls seen so far. *)
Inductive Phase : Type :=
| Started
| GraphMade
| Extracted
| Flattened
| BundlesSplit
| MasterSplit
| ConfigEmitted.

(** The stage calls a phase admits next: the graph is made once; then the
    order is assigned, any number of times; then come one extraction, one
    flattening, the two splits, any number of namings and one emission of
    the configuration. *)
Definition next_phase (p : Phase) (stage : nat) : option Phase :=
  match p, stage with
  | Started, 0%nat => Some GraphMade
  | GraphMade, 1%nat => Some GraphMade
  | GraphMade, 2%nat => Some Extracted
  | Extracted, 3%nat => Some Flattened
  | Flattened, 4%nat => Some BundlesSplit
  | BundlesSplit, 4%nat => Some MasterSplit
  | MasterSplit, 5%nat => Some MasterSplit
  | MasterSplit, 6%nat => Some ConfigEmitted
  | _, _ => None
  end.

(** The phase reached from [p] by a sequence of stage calls, if every one
    of them is admitted where it comes. *)
Fixpoint run_phases (p : Phase) (l : list nat) : option Phase :=
  match l with
  | [] => Some p
  | stage :: l' =>
      match next_phase p stage with
      | Some p' => run_phases p' l'
      | None => None
      end
  end.

(** From the phase [p], the stage calls of [m] are admitted one after the
    other, and when [m] returns the phase reached satisfies [Q]. *)
Definition advances {A : Type} (m : M A) (p : Phase) (Q : Phase -> Prop) : Prop :=
  forall w, exists cs p',
    World.trace (snd (m w)) = World.trace w ++ cs
    /\ run_phases p (stages cs) = Some p'
    /\ (forall a, fst (m w) = Normal a -> Q p').




(** ** Sample inputs *)

Module Sample.
Definition node (name : string) : Node.t :=
  {| Node.load := {| Load.name := name; Load.source := None |};
     Node.minifiedSource := None;
     Node.dependencies := Some [];
     Node.bundles := Some [];
     Node.order := None |}.

Definition bundle (name : string) (modules : list string) : Bundle.t :=
  {| Bundle.nodes := map node modules;
     Bundle.bundles := [];
     Bundle.name := Some name;
     Bundle.size := None;
     Bundle.buildType := Some js |}.

Definition loader (bundlesPath : jsval) : Loader.t :=
  {| Loader.baseURL := "file:/app/";
     Loader.main := "main";
     Loader.bundle := Some ["app1"; "app2"];
     Loader.bundlesPath := bundlesPath |}.

Definition configuration (bundleSteal bundlesPath : jsval) : Configuration.t :=
  {| Configuration.loader := loader bundlesPath;
     Configuration.options :=
       {| Options.minify := JBool true; Options.bundleSteal := bundleSteal |};
     Configuration.bundlesPathURL := "file:/app/dist/bundles" |}.

Definition master : Bundle.t := bundle "bundles/main" ["@config"; "main"].
Definition app1 : Bundle.t := bundle "bundles/app1" ["app1"; "widget"].
Definition app2 : Bundle.t := bundle "bundles/app2" ["app2"].

(** Two bundles that carry the same name. *)
Definition shared_a : Bundle.t := bundle "bundles/shared" ["jquery"].
Definition shared_b : Bundle.t := bundle "bundles/shared" ["can/util"].

(** A store whose only array is a bundle list. *)
Definition store : gmap positive (list Bundle.t) :=
  {[ 1%positive := [master; app1; app2] ]}.

(** A graph node with its source, its minified source, its dependencies,
    its entry points and its order. *)
Definition graph_node (name source minified : string) (deps entries : list string)
    (order : option Z) : Node.t :=
  {| Node.load := {| Load.name := name; Load.source := Some source |};
     Node.minifiedSource := Some minified;
     Node.dependencies := Some deps;
     Node.bundles := Some entries;
     Node.order := order |}.

(** The graph of the specification's example: [b] and [c] depend on [a];
    [app1] needs [a] and [b], [app2] needs [a] and [c]. *)
Definition graph : Graph :=
  [("a", graph_node "a" "var a = 1;" "var a=1;" [] ["app1"; "app2"] (Some 0));
   ("b", graph_node "b" "b(a);" "b(a);" ["a"] ["app1"] (Some 1));
   ("c", graph_node "c" "c(a);" "c(a)" ["a"] ["app2"] (Some 1))].




Definition data : Data.t :=
  {| Data.graph := graph;
     Data.loader := loader JUndefined;
     Data.buildLoader := loader JUndefined |}.

Definition config (bundleDepth : jsval) : Config.t :=
  {| Config.bundleDepth := bundleDepth; Config.system := [("main", JStr "main")] |}.

Definition named (b : Bundle.t) : Bundle.t :=
  {| Bundle.nodes := Bundle.nodes b;
     Bundle.bundles := Bundle.bundles b;
     Bundle.name := Some ("bundles/" +:+ JSON.join "-" (Bundle.bundles b));
     Bundle.size := Bundle.size b;
     Bundle.buildType := Bundle.buildType b |}.

Definition boom : Error := Raised "boom" "Error: boom at makeBundle".

(** Collaborators that all return, but for [makeBundle], which is given. *)
Definition collaborators
    (extract : Graph -> Completion (list Bundle.t * Graph)) : Collaborators :=
  {| logging_setup := fun _ => Normal tt;
     makeBundleGraph := fun _ => Normal (Resolved data);
     hasES6 := fun _ => Normal false;
     makeConfiguration := fun loader _ options =>
       Normal {| Configuration.loader := loader;
                 Configuration.options := options;
                 Configuration.bundlesPathURL := "file:/app/dist/bundles" |};
     pluck := fun g moduleName =>
       Normal (map snd (filter (fun kv => fst kv = moduleName) g),
               filter (fun kv => fst kv <> moduleName) g);
     order := fun g _ => Normal g;
     transpile := fun g _ => Normal g;
     minifyGraph := fun g => Normal g;
     minifyGraph_array := fun l => Normal l;
     pluckOnlyInBundle := fun g _ => Normal g;
     makeBundle := extract;
     flattenBundle := fun bs _ => Normal bs;
     splitByBuildType := fun bs => Normal bs;
     nameBundle := fun b => Normal (named b);
     addStealToBundle := fun b _ => Normal b;
     addTraceurRuntime := fun b => Normal b;
     writeBundles := fun _ _ => Normal (Resolved JUndefined) |}.

Definition working : Collaborators :=
  collaborators (fun g => Normal (Extractor.makeBundle g)).

Definition failing : Collaborators := collaborators (fun _ => Throw boom).
End Sample.

(** ** Further notions *)

(** The last bundle of a list that is filed under the key [k]. *)
Fixpoint last_named (k : string) (bs : list Bundle.t) : option Bundle.t :=
  match bs with
  | [] => None
  | b :: bs' =>
      match last_named k bs' with
      | Some b' => Some b'
      | None => if String.eqb (property_key b) k then Some b else None
      end
  end.

(** [m] extends the trace of any world by calls that satisfy [P] and its
    log by entries that satisfy [L], and touches nothing else. *)
Definition keeps {A : Type} (m : M A) (P : Call -> Prop) (L : LogEntry -> Prop) : Prop :=
  forall w, exists cs ls,
    World.trace (snd (m w)) = World.trace w ++ cs
    /\ World.winston (snd (m w)) = World.winston w ++ ls
    /\ Forall P cs /\ Forall L ls.

(** What the callback of the build may call, given the data the graph
    construction resolved with: it plucks [@config], [@dev] and the main
    module only, assigns the order of the bundle roots of the loader only,
    minifies only if [minify] is on, passes [config.bundleDepth || 3] to the
    flattener, adds steal only if [bundleSteal] is set and the Traceur
    runtime only if [hasES6] answered true for the graph as it was resolved,
    and writes the bundles only if [splitByBuildType] returned a bundle for
    the master bundle; it neither sets up logging nor builds a graph. *)
Definition guarded (K : Collaborators) (config : Config.t) (options : Options.t)
    (minify : bool) (data : Data.t) (c : Call) : Prop :=
  match c with
  | CallLoggingSetup | CallMakeBundleGraph => False
  | CallPluck moduleName =>
      moduleName = "@config" \/ moduleName = "@dev"
      \/ moduleName = Loader.main (Data.loader data)
  | CallOrder moduleName => moduleName ∈ default [] (Loader.bundle (Data.loader data))
  | CallMinifyGraph => minify = true
  | CallFlattenBundle d => d = maxDepth config
  | CallAddStealToBundle => truthy (Options.bundleSteal options) = true
  | CallAddTraceurRuntime => hasES6 K (Data.graph data) = Normal true
  | CallWriteBundles =>
      exists masterBundle master rest,
        splitByBuildType K [masterBundle] = Normal (master :: rest)
  | _ => True
  end.

(** What the callback of the build may log: the notice of minification, if
    [minify] is on. *)
Definition build_logs (minify : bool) (entry : LogEntry) : Prop :=
  entry = LogInfo "Minifying..." /\ minify = true.

(** What a whole run may call. *)
Definition guarded_run (K : Collaborators) (config : Config.t)
    (options : option RawOptions.t) (c : Call) : Prop :=
  match c with
  | CallLoggingSetup | CallMakeBundleGraph => True
  | _ => exists data,
      makeBundleGraph K config = Normal (Resolved data)
      /\ guarded K config (assign_defaults options) (minify_of options) data c
  end.

(** What a whole run may log: the notice of minification, and an error the
    chain was rejected with. *)
Definition run_logs (K : Collaborators) (config : Config.t)
    (options : option RawOptions.t) (w : World.t) (entry : LogEntry) : Prop :=
  build_logs (minify_of options) entry
  \/ exists e,
       entry = LogError e
       /\ fst (build_chain K config (assign_defaults options) (minify_of options)
                           (called CallLoggingSetup w))
          = Normal (Rejected e).

(** The calls of a callback that runs to its end, in order, for the answer
    [es6] of [hasES6] and [named] bundles to name. *)
Definition calls_of_success (config : Config.t) (options : Options.t) (minify : bool)
    (data : Data.t) (es6 : bool) (named : nat) : list Call :=
  [CallHasES6; CallMakeConfiguration; CallPluck "@config"; CallPluck "@dev"]
  ++ map CallOrder (default [] (Loader.bundle (Data.loader data)))
  ++ [CallTranspile]
  ++ (if minify then [CallMinifyGraph] else [])
  ++ [CallPluck (Loader.main (Data.loader data)); CallPluckOnlyInBundle]
  ++ (if minify then [CallMinifyGraph] else [])
  ++ [CallMakeBundle; CallFlattenBundle (maxDepth config);
      CallSplitByBuildType; CallSplitByBuildType]
  ++ replicate named CallNameBundle
  ++ [CallMakeBundlesConfig]
  ++ (if truthy (Options.bundleSteal options) then [CallAddStealToBundle] else [])
  ++ (if es6 then [CallAddTraceurRuntime] else [])
  ++ [CallWriteBundles].

Module Fixture.
(** Collaborators that all return; [splitByBuildType] returns no bundle. *)
Definition unsplit : Collaborators :=
  {| logging_setup := logging_setup Sample.working;
     makeBundleGraph := makeBundleGraph Sample.working;
     hasES6 := hasES6 Sample.working;
     makeConfiguration := makeConfiguration Sample.working;
     pluck := pluck Sample.working;
     order := order Sample.working;
     transpile := transpile Sample.working;
     minifyGraph := minifyGraph Sample.working;
     minifyGraph_array := minifyGraph_array Sample.working;
     pluckOnlyInBundle := pluckOnlyInBundle Sample.working;
     makeBundle := makeBundle Sample.working;
     flattenBundle := flattenBundle Sample.working;
     splitByBuildType := fun _ => Normal [];
     nameBundle := nameBundle Sample.working;
     addStealToBundle := addStealToBundle Sample.working;
     addTraceurRuntime := addTraceurRuntime Sample.working;
     writeBundles := writeBundles Sample.working |}.
(** Collaborators that all return; [hasES6] answers true. *)
Definition with_es6 : Collaborators :=
  {| logging_setup := logging_setup Sample.working;
     makeBundleGraph := makeBundleGraph Sample.working;
     hasES6 := fun _ => Normal true;
     makeConfiguration := makeConfiguration Sample.working;
     pluck := pluck Sample.working;
     order := order Sample.working;
     transpile := transpile Sample.working;
     minifyGraph := minifyGraph Sample.working;
     minifyGraph_array := minifyGraph_array Sample.working;
     pluckOnlyInBundle := pluckOnlyInBundle Sample.working;
     makeBundle := makeBundle Sample.working;
     flattenBundle := flattenBundle Sample.working;
     splitByBuildType := splitByBuildType Sample.working;
     nameBundle := nameBundle Sample.working;
     addStealToBundle := addStealToBundle Sample.working;
     addTraceurRuntime := addTraceurRuntime Sample.working;
     writeBundles := writeBundles Sample.working |}.
(** Collaborators whose graph construction rejects with [undefined]. *)
Definition rejecting : Collaborators :=
  {| logging_setup := logging_setup Sample.working;
     makeBundleGraph := fun _ => Normal (Rejected (Thrown JUndefined));
     hasES6 := hasES6 Sample.working;
     makeConfiguration := makeConfiguration Sample.working;
     pluck := pluck Sample.working;
     order := order Sample.working;
     transpile := transpile Sample.working;
     minifyGraph := minifyGraph Sample.working;
     minifyGraph_array := minifyGraph_array Sample.working;
     pluckOnlyInBundle := pluckOnlyInBundle Sample.working;
     makeBundle := makeBundle Sample.working;
     flattenBundle := flattenBundle Sample.working;
     splitByBuildType := splitByBuildType Sample.working;
     nameBundle := nameBundle Sample.working;
     addStealToBundle := addStealToBundle Sample.working;
     addTraceurRuntime := addTraceurRuntime Sample.working;
     writeBundles := writeBundles Sample.working |}.
End Fixture.

(** ** [lib/build/helpers/cjs.js]: [normalize] and [dest]

    The helper calls Node's [path] module and [process.cwd()], and the
    functions [basename] and [removeFileProtocol] of [./base]; they enter as
    the fields of [Platform] and [BaseHelper].  The argument [aliases] is
    given by what [aliases[name]] yields on the object [aliases || {}]: an
    alias, or nothing. *)

Module CjsNames.
Record Platform : Type := {
  path_relative : string -> string -> string;
  path_dirname : string -> string;
  path_join : list string -> string;
  process_cwd : string
}.

Record BaseHelper : Type := {
  basename : Cjs.Load.t -> string;
  removeFileProtocol : string -> string
}.

(** [s[0]] *)
Definition first_char (s : string) : option ascii :=
  match s with
  | EmptyString => None
  | String c _ => Some c
  end.

(** [s[s.length - 1]] *)
Fixpoint last_char (s : string) : option ascii :=
  match s with
  | EmptyString => None
  | String c EmptyString => Some c
  | String _ s' => last_char s'
  end.

(** [x === c] for a character [x] read from a string, [undefined] when the
    position is outside the string. *)
Definition is_char (x : option ascii) (c : ascii) : bool :=
  match x with
  | Some y => Ascii.eqb y c
  | None => false
  end.

(** [s.split(sep)] for a separator of one character. *)
Fixpoint split (sep : ascii) (s : string) : list string :=
  match s with
  | EmptyString => [EmptyString]
  | String c s' =>
      if Ascii.eqb c sep then EmptyString :: split sep s'
      else match split sep s' with
           | [] => [String c EmptyString]
           | h :: t => String c h :: t
           end
  end.

(** [parts[parts.length - 1] = parts[parts.length - 2]]: the last element
    becomes a copy of the one before it; an array of one element is left
    with [undefined], which [join] prints as the empty string. *)
Definition repeat_last_but_one (parts : list string) : list string :=
  match rev parts with
  | _ :: previous :: rest => rev (previous :: previous :: rest)
  | [_] => [EmptyString]
  | [] => []
  end.

(** The alias of a name, if it has one that is taken for true. *)
Definition alias_of (aliases : string -> option string) (name : string) : option string :=
  match aliases name with
  | Some a => if String.eqb a "" then None else Some a
  | None => None
  end.

(** [v || d] for a string that may be left out. *)
Definition or_default (v : option string) (d : string) : string :=
  match v with
  | Some s => if String.eqb s "" then d else s
  | None => d
  end.

Fixpoint drop_chars (n : nat) (s : string) : string :=
  match n, s with
  | O, _ => s
  | S n', String _ s' => drop_chars n' s'
  | S _, EmptyString => EmptyString
  end.

(** [s.replace(pattern, "")] for a string [pattern]: the first occurrence
    of the pattern is removed. *)
Fixpoint remove_first (pattern s : string) : string :=
  if prefixb pattern s then drop_chars (String.length pattern) s
  else match s with
       | EmptyString => EmptyString
       | String c s' => String c (remove_first pattern s')
       end.

Section Helper.
Context (P : Platform) (B : BaseHelper).

(** The function returned by [normalize(aliases)]. *)
Definition normalize (aliases : string -> option string)
    (depName : string) (depLoad : Cjs.Load.t) (curName : string) (curLoad : Cjs.Load.t)
  : string :=
  match alias_of aliases depName with
  | Some a => a
  | None =>
      (* if both not in node_modules *)
      let depName :=
        if (indexOf (Cjs.Load.address depLoad) "node_modules" =? -1)
           && (indexOf (Cjs.Load.address curLoad) "node_modules" =? -1)
        then
          (* provide its name relative *)
          let depName := path_relative P (path_dirname P (Cjs.Load.address curLoad))
                                         (Cjs.Load.address depLoad) in
          if negb (is_char (first_char depName) ".")
          then "./" +:+ depName
          else depName
        else depName in
      (* if it ends in / *)
      let depName :=
        if is_char (last_char depName) "/"
        then JSON.join "/" (repeat_last_but_one (split "/" depName))
        else depName in
      (* if the path is already relative ... good ... keep it that way *)
      if indexOf depName "./" =? 0
      then path_dirname P depName +:+ "/" +:+ basename B depLoad
      else depName
  end.

(** The function returned by [dest(aliases, root, dist)]. *)
Definition dest (aliases : string -> option string) (root dist : option string)
    (moduleName : string) (moduleData : jsval) (load : Cjs.Load.t) : string :=
  let root := or_default root (process_cwd P) in
  let dist := or_default dist "dist/cjs" in
  match alias_of aliases moduleName with
  | Some a => path_join P [root; dist; a]
  | None =>
      (* move it to lib/cjs and rename it *)
      let address := removeFileProtocol B (path_dirname P (Cjs.Load.address load)) in
      let address := remove_first root address in
      let basename := basename B load in
      path_join P [root; dist; address; basename]
  end.
End Helper.

(** The last of the parts of [s] between slashes. *)
Definition last_segment (s : string) : string :=
  match rev (split "/" s) with
  | x :: _ => x
  | [] => EmptyString
  end.
End CjsNames.

(** A platform with simple path functions, for examples: a directory name
    is what precedes the last slash, a relative path is the target without
    the directory it is under, and joining puts slashes between the parts. *)
Definition simple_platform : CjsNames.Platform :=
  {| CjsNames.path_relative := fun from to => CjsNames.remove_first (from +:+ "/") to;
     CjsNames.path_dirname := fun s =>
       JSON.join "/" (rev (tl (rev (CjsNames.split "/" s))));
     CjsNames.path_join := JSON.join "/";
     CjsNames.process_cwd := "/app" |}.

Definition simple_base : CjsNames.BaseHelper :=
  {| CjsNames.basename := fun load =>
       CjsNames.last_segment (Cjs.Load.address load);
     CjsNames.removeFileProtocol := CjsNames.remove_first "file:" |}.

Definition load_at (address : string) : Cjs.Load.t :=
  {| Cjs.Load.address := address;
     Cjs.Load.metadata := {| Cjs.Metadata.format := JStr "cjs" |} |}.

Definition no_aliases : string -> option string := fun _ => None.

(** * Properties *)

(** ** Strings *)

#[local] Arguments String.append : simpl nomatch.

Lemma prefixb_spec (p s : string) :
  prefixb p s = true <-> exists post, s = p +:+ post.
Proof.
  revert s; induction p as [|a p IH]; intros s; simpl.
  - split; [intros _; now exists s | reflexivity].
  - destruct s as [|b s].
    + split; [discriminate | intros [post H]; discriminate].
    + rewrite andb_true_iff, IH, Ascii.eqb_eq. split.
      * intros [-> [post ->]]. now exists post.
      * intros [post H]. injection H as -> ->. split; [reflexivity | now exists post].
Qed.

Lemma indexOf_from_occurs (from : Z) (sub s : string) :
  0 <= from -> (0 <= indexOf_from from sub s <-> occurs sub s).
Proof.
  revert from; induction s as [|c s IH]; intros from Hfrom; simpl.
  - destruct (prefixb sub "") eqn:E.
    + split; [intros _ | intros _; exact Hfrom].
      apply prefixb_spec in E as [post E]. now exists "", post.
    + split; [lia |]. intros (pre & post & H).
      destruct pre; [| discriminate]. simpl in H.
      assert (prefixb sub "" = true) by (apply prefixb_spec; now exists post).
      congruence.
  - destruct (prefixb sub (String c s)) eqn:E.
    + split; [intros _ | intros _; exact Hfrom].
      apply prefixb_spec in E as [post E]. now exists "", post.
    + rewrite (IH (from + 1)) by lia. split.
      * intros (pre & post & ->). now exists (String c pre), post.
      * intros (pre & post & H). destruct pre as [|c' pre].
        -- simpl in H.
           assert (prefixb sub (String c s) = true)
             by (apply prefixb_spec; now exists post).
           congruence.
        -- injection H as -> ->. now exists pre, post.
Qed.

Lemma indexOf_occurs (s sub : string) : 0 <= indexOf s sub <-> occurs sub s.
Proof. unfold indexOf. now apply indexOf_from_occurs. Qed.

(** ** The cjs helper *)

(** C10.  The list returned by [ignore] starts with a predicate that answers
    [true] exactly when the address of the load contains [/node_modules/]
    or its [metadata.format] is the string [defined]; the predicates the
    caller supplied follow it, unchanged and in order. *)
Theorem cjs_ignore_predicate (a : Cjs.additional) :
  exists first,
    Cjs.ignore a = first :: CjsFacts.supplied a
    /\ forall (name : string) (load : Cjs.Load.t),
         first name load = JBool true
         <-> (occurs "/node_modules/" (Cjs.Load.address load)
              \/ Cjs.Metadata.format (Cjs.Load.metadata load) = JStr "defined").
Proof.
  exists Cjs.ignore_node_modules. split.
  - destruct a; reflexivity.
  - intros name load. unfold Cjs.ignore_node_modules.
    rewrite <- indexOf_occurs.
    destruct (Cjs.Metadata.format (Cjs.Load.metadata load)) as [| | b | n | s] eqn:F;
      unfold strict_equal; simpl;
      destruct (Z.leb_spec 0 (indexOf (Cjs.Load.address load) "/node_modules/"));
      simpl; try (split; [intros _; now left | reflexivity]);
      try (split; [discriminate | intros [? | ?]; [lia | discriminate]]).
    destruct (String.eqb_spec s "defined") as [-> | Hne].
    + split; [intros _; now right | reflexivity].
    + split; [discriminate | intros [? | ?]; [lia | congruence]].
Qed.

(** ** Objects used as maps *)

Section JsObjectFacts.
Context {V : Type}.
Implicit Types (o : JsObject.t V) (k : string) (v : V).

Lemma get_define_eq k v o : JsObject.get k (JsObject.define k v o) = Some v.
Proof.
  induction o as [|[k' v'] o IH]; simpl.
  - now rewrite String.eqb_refl.
  - destruct (String.eqb_spec k k') as [-> | Hne]; simpl.
    + now rewrite String.eqb_refl.
    + destruct (String.eqb_spec k k'); [contradiction | exact IH].
Qed.

Lemma get_define_ne k k' v o :
  k <> k' -> JsObject.get k' (JsObject.define k v o) = JsObject.get k' o.
Proof.
  intros Hne. induction o as [|[k0 v0] o IH]; simpl.
  - destruct (String.eqb_spec k' k); [congruence | reflexivity].
  - destruct (String.eqb_spec k k0) as [-> | Hk]; simpl.
    + destruct (String.eqb_spec k' k0); [congruence | reflexivity].
    + destruct (String.eqb_spec k' k0); [reflexivity | exact IH].
Qed.

Lemma get_None_keys k o : JsObject.get k o = None <-> k ∉ JsObject.keys o.
Proof.
  induction o as [|[k' v'] o IH]; simpl.
  - split; [intros _; apply not_elem_of_nil | reflexivity].
  - rewrite not_elem_of_cons. destruct (String.eqb_spec k k') as [-> | Hne].
    + split; [discriminate | intros [? _]; contradiction].
    + rewrite IH. tauto.
Qed.

Lemma define_fresh k v o :
  k ∉ JsObject.keys o -> JsObject.define k v o = o ++ [(k, v)].
Proof.
  induction o as [|[k' v'] o IH]; simpl; [reflexivity |].
  rewrite not_elem_of_cons. intros [Hne Hnotin].
  destruct (String.eqb_spec k k'); [contradiction |].
  now rewrite IH.
Qed.

Lemma insert_index_perm (e : N * (string * V)) l :
  JsObject.insert_index e l ≡ₚ e :: l.
Proof.
  induction l as [|e' l IH]; simpl; [reflexivity |].
  destruct (fst e <=? fst e')%N; [reflexivity |].
  rewrite IH. apply perm_swap.
Qed.

Lemma sorted_indexed_perm (l : list (N * (string * V))) :
  fold_right JsObject.insert_index [] l ≡ₚ l.
Proof.
  induction l as [|e l IH]; simpl; [reflexivity |].
  now rewrite insert_index_perm, IH.
Qed.

Lemma indexed_named_perm o :
  map snd (JsObject.indexed o) ++ JsObject.named o ≡ₚ o.
Proof.
  unfold JsObject.indexed, JsObject.named.
  induction o as [|[k v] o IH]; [reflexivity |].
  rewrite filter_cons. simpl.
  destruct (JsObject.array_index k) as [n|] eqn:E; simpl.
  - destruct (decide (Some n = None)); [discriminate |].
    now rewrite IH.
  - destruct (decide (@None N = None)); [| contradiction].
    rewrite <- Permutation_middle. now rewrite IH.
Qed.

(** Enumeration visits every own property exactly once. *)
Lemma enumerate_perm o : JsObject.enumerate o ≡ₚ o.
Proof.
  unfold JsObject.enumerate.
  rewrite sorted_indexed_perm. apply indexed_named_perm.
Qed.
End JsObjectFacts.

(** ** The configuration emitter *)

Lemma paths_statements_format (url : string) :
  util_format paths_template [url; url] = paths_statements url.
Proof.
  unfold paths_template, paths_statements, dquote, newline. simpl.
  reflexivity.
Qed.

Lemma paths_statements_nonempty (url : string) : paths_statements url <> "".
Proof. unfold paths_statements. simpl. discriminate. Qed.

(** C6.  The text of the configuration node is the paths prefix followed by
    the [System.bundles] assignment.  The prefix consists of the two
    [System.paths] statements for [bundles/*.css] and [bundles/*], built
    from the bundles-path URL, when [configuration.loader.bundlesPath] is
    set (holds a value the guard [!configuration.loader.bundlesPath] takes
    for true), and is the empty string otherwise; so it is non-empty
    exactly when [bundlesPath] is set. *)
Theorem bundles_paths_prefix (bundles : list Bundle.t) (configuration : Configuration.t) :
  Node.minifiedSource (make_bundles_config bundles configuration)
  = Some (getBundlesPaths configuration +:+ "System.bundles = "
            +:+ JSON.stringify (bundlesConfig bundles configuration) +:+ ";")
  /\ getBundlesPaths configuration
     = (if truthy (Loader.bundlesPath (Configuration.loader configuration))
        then paths_statements (Configuration.bundlesPathURL configuration)
        else "")
  /\ (getBundlesPaths configuration <> ""
      <-> truthy (Loader.bundlesPath (Configuration.loader configuration)) = true).
Proof.
  assert (E : getBundlesPaths configuration
              = (if truthy (Loader.bundlesPath (Configuration.loader configuration))
                 then paths_statements (Configuration.bundlesPathURL configuration)
                 else "")).
  { unfold getBundlesPaths.
    destruct (truthy (Loader.bundlesPath (Configuration.loader configuration)));
      simpl; [apply paths_statements_format | reflexivity]. }
  split; [reflexivity | split; [exact E |]].
  rewrite E.
  destruct (truthy (Loader.bundlesPath (Configuration.loader configuration))).
  - split; [reflexivity | intros _; apply paths_statements_nonempty].
  - split; [congruence | discriminate].
Qed.

Lemma elem_of_map {A B : Type} (f : A -> B) (l : list A) (x : A) :
  x ∈ l -> f x ∈ map f l.
Proof.
  induction l as [|y l IH]; simpl; intros H.
  - now apply elem_of_nil in H.
  - apply elem_of_cons in H as [-> | H]; apply elem_of_cons; [now left | right; auto].
Qed.

Lemma set_not_proto {V : Type} (k : string) (v : V) (o : JsObject.t V) :
  k <> "__proto__" -> JsObject.set k v o = JsObject.define k v o.
Proof.
  intros H. unfold JsObject.set.
  destruct (String.eqb_spec k "__proto__"); [contradiction | reflexivity].
Qed.

(** Bundles with pairwise distinct names, none of them [__proto__] and none
    yet a key of the object, are appended to it in order. *)
Lemma fill_bundlesConfig_distinct (included : list Bundle.t)
    (o : JsObject.t (list string)) :
  NoDup (map property_key included) ->
  "__proto__" ∉ map property_key included ->
  (forall k, k ∈ map property_key included -> k ∉ JsObject.keys o) ->
  fill_bundlesConfig included o = o ++ map manifest_entry included.
Proof.
  revert o. induction included as [|b bs IH]; intros o Hnd Hproto Hfresh; simpl.
  - now rewrite app_nil_r.
  - apply NoDup_cons in Hnd as [Hb Hnd].
    apply not_elem_of_cons in Hproto as [Hpb Hproto].
    unfold fill_bundlesConfig in *. simpl.
    rewrite set_not_proto by congruence.
    rewrite define_fresh by (apply Hfresh; simpl; apply elem_of_cons; now left).
    rewrite IH; [now rewrite <- app_assoc | assumption | assumption |].
    intros k Hk. unfold JsObject.keys. rewrite map_app. simpl.
    rewrite elem_of_app, list_elem_of_singleton. intros [Hko | ->].
    + apply (Hfresh k); [simpl; apply elem_of_cons; now right | exact Hko].
    + contradiction.
Qed.

Lemma get_manifest_entry (included : list Bundle.t) (b : Bundle.t) :
  NoDup (map property_key included) -> b ∈ included ->
  JsObject.get (property_key b) (map manifest_entry included) = Some (moduleNames b).
Proof.
  induction included as [|x bs IH]; intros Hnd Hin; simpl.
  - now apply elem_of_nil in Hin.
  - apply NoDup_cons in Hnd as [Hx Hnd].
    apply elem_of_cons in Hin as [-> | Hin].
    + now rewrite String.eqb_refl.
    + destruct (String.eqb_spec (property_key b) (property_key x)) as [E | _].
      * exfalso. apply Hx. rewrite <- E. now apply elem_of_map.
      * now apply IH.
Qed.

Lemma keys_manifest (included : list Bundle.t) :
  JsObject.keys (map manifest_entry included) = map property_key included.
Proof. unfold JsObject.keys. rewrite map_map. reflexivity. Qed.

Lemma bundlesConfig_distinct (bundles : list Bundle.t) (configuration : Configuration.t) :
  NoDup (map property_key (bundledBundles bundles configuration)) ->
  "__proto__" ∉ map property_key (bundledBundles bundles configuration) ->
  bundlesConfig bundles configuration
  = map manifest_entry (bundledBundles bundles configuration).
Proof.
  intros Hnd Hproto. unfold bundlesConfig.
  rewrite fill_bundlesConfig_distinct; [reflexivity | assumption | assumption |].
  intros k _. apply not_elem_of_nil.
Qed.

(** C3, as amended.  When the bundles written to the manifest have pairwise
    distinct names, none of them the reserved key [__proto__], the object
    assigned to [System.bundles] in the emitted text holds, for each such
    bundle and in their order, its name with the names of the modules of
    its nodes, in node order, and holds nothing else. *)
Theorem manifest_of_distinct_names (bundles : list Bundle.t)
    (configuration : Configuration.t) :
  NoDup (map property_key (bundledBundles bundles configuration)) ->
  "__proto__" ∉ map property_key (bundledBundles bundles configuration) ->
  Node.minifiedSource (make_bundles_config bundles configuration)
  = Some (getBundlesPaths configuration +:+ "System.bundles = "
            +:+ JSON.stringify (bundlesConfig bundles configuration) +:+ ";")
  /\ bundlesConfig bundles configuration
     = map manifest_entry (bundledBundles bundles configuration)
  /\ JsObject.enumerate (bundlesConfig bundles configuration)
     ≡ₚ map manifest_entry (bundledBundles bundles configuration)
  /\ (forall b, b ∈ bundledBundles bundles configuration ->
        JsObject.get (property_key b) (bundlesConfig bundles configuration)
        = Some (map (fun node => Load.name (Node.load node)) (Bundle.nodes b)))
  /\ (forall k, k ∉ map property_key (bundledBundles bundles configuration) ->
        JsObject.get k (bundlesConfig bundles configuration) = None).
Proof.
  intros Hnd Hproto.
  pose proof (bundlesConfig_distinct bundles configuration Hnd Hproto) as E.
  split; [reflexivity | split; [exact E |]].
  split; [rewrite enumerate_perm; now rewrite E |].
  rewrite E. split.
  - intros b Hb. now apply get_manifest_entry.
  - intros k Hk. apply get_None_keys. now rewrite keys_manifest.
Qed.

Lemma manifest_of_distinct_names_witness :
  NoDup (map property_key
           (bundledBundles [Sample.master; Sample.app1; Sample.app2]
                           (Sample.configuration (JBool true) JUndefined)))
  /\ bundlesConfig [Sample.master; Sample.app1; Sample.app2]
                   (Sample.configuration (JBool true) JUndefined)
     = [("bundles/app1", ["app1"; "widget"]); ("bundles/app2", ["app2"])].
Proof.
  assert (Hnd : NoDup (map property_key
           (bundledBundles [Sample.master; Sample.app1; Sample.app2]
                           (Sample.configuration (JBool true) JUndefined)))).
  { apply (bool_decide_unpack _). vm_compute. exact I. }
  split; [exact Hnd |].
  apply (manifest_of_distinct_names [Sample.master; Sample.app1; Sample.app2]
           (Sample.configuration (JBool true) JUndefined) Hnd).
  apply (bool_decide_unpack _). vm_compute. exact I.
Defined.

(** C3, as stated, fails when two bundles carry the same name: the later
    assignment replaces the earlier one, and the first bundle's name is
    mapped to the modules of the second. *)
Lemma manifest_duplicate_name :
  Sample.shared_a ∈ bundledBundles [Sample.shared_a; Sample.shared_b]
                                   (Sample.configuration (JBool false) JUndefined)
  /\ JsObject.get (property_key Sample.shared_a)
       (bundlesConfig [Sample.shared_a; Sample.shared_b]
                      (Sample.configuration (JBool false) JUndefined))
     = Some ["can/util"]
  /\ moduleNames Sample.shared_a = ["jquery"]
  /\ JsObject.get (property_key Sample.shared_a)
       (bundlesConfig [Sample.shared_a; Sample.shared_b]
                      (Sample.configuration (JBool false) JUndefined))
     <> Some (moduleNames Sample.shared_a).
Proof.
  split; [apply elem_of_cons; now left |].
  split; [reflexivity | split; [reflexivity | discriminate]].
Qed.

Lemma bundledBundles_steal (bundles : list Bundle.t) (configuration : Configuration.t) :
  bundledBundles bundles configuration
  = if truthy (Options.bundleSteal (Configuration.options configuration))
    then tail bundles else bundles.
Proof. reflexivity. Qed.

Lemma NoDup_map_tail {A B : Type} (f : A -> B) (l : list A) :
  NoDup (map f l) -> NoDup (map f (tail l)).
Proof. destruct l as [|x l]; simpl; [auto | intros H; now apply NoDup_cons in H]. Qed.

Lemma not_elem_of_map_tail {A B : Type} (f : A -> B) (l : list A) (y : B) :
  y ∉ map f l -> y ∉ map f (tail l).
Proof.
  destruct l as [|x l]; simpl; [auto | intros H; now apply not_elem_of_cons in H].
Qed.

(** C8, as amended.  For a bundle list with pairwise distinct names, none
    of them the reserved key [__proto__]: when [bundleSteal] is true (or
    any value taken for true) the name of the first bundle is not in the
    manifest and every other bundle is, with its modules; when
    [bundleSteal] is false (or taken for false) every bundle of the list is
    in the manifest with its modules. *)
Theorem bundleSteal_omits_master (bundles : list Bundle.t)
    (configuration : Configuration.t) :
  NoDup (map property_key bundles) ->
  "__proto__" ∉ map property_key bundles ->
  (truthy (Options.bundleSteal (Configuration.options configuration)) = true ->
     bundlesConfig bundles configuration = map manifest_entry (tail bundles)
     /\ (forall master, head bundles = Some master ->
           JsObject.get (property_key master) (bundlesConfig bundles configuration) = None)
     /\ (forall b, b ∈ tail bundles ->
           JsObject.get (property_key b) (bundlesConfig bundles configuration)
           = Some (moduleNames b)))
  /\ (truthy (Options.bundleSteal (Configuration.options configuration)) = false ->
        bundlesConfig bundles configuration = map manifest_entry bundles
        /\ (forall b, b ∈ bundles ->
              JsObject.get (property_key b) (bundlesConfig bundles configuration)
              = Some (moduleNames b))).
Proof.
  intros Hnd Hproto. split; intros Hsteal.
  - assert (E : bundlesConfig bundles configuration = map manifest_entry (tail bundles)).
    { rewrite bundlesConfig_distinct; rewrite bundledBundles_steal, Hsteal;
        [reflexivity | now apply NoDup_map_tail | now apply not_elem_of_map_tail]. }
    rewrite E. split; [reflexivity | split].
    + intros master Hhead. apply get_None_keys. rewrite keys_manifest.
      destruct bundles as [|m rest]; [discriminate |].
      injection Hhead as ->. simpl in *. now apply NoDup_cons in Hnd.
    + intros b Hb. apply get_manifest_entry; [now apply NoDup_map_tail | exact Hb].
  - assert (E : bundlesConfig bundles configuration = map manifest_entry bundles).
    { rewrite bundlesConfig_distinct; rewrite bundledBundles_steal, Hsteal;
        [reflexivity | assumption | assumption]. }
    rewrite E. split; [reflexivity |].
    intros b Hb. now apply get_manifest_entry.
Qed.

Lemma bundleSteal_omits_master_witness :
  NoDup (map property_key [Sample.master; Sample.app1; Sample.app2])
  /\ JsObject.get (property_key Sample.master)
       (bundlesConfig [Sample.master; Sample.app1; Sample.app2]
                      (Sample.configuration (JBool true) JUndefined)) = None
  /\ JsObject.get (property_key Sample.master)
       (bundlesConfig [Sample.master; Sample.app1; Sample.app2]
                      (Sample.configuration (JBool false) JUndefined))
     = Some ["@config"; "main"].
Proof.
  assert (Hnd : NoDup (map property_key [Sample.master; Sample.app1; Sample.app2])).
  { apply (bool_decide_unpack _). vm_compute. exact I. }
  assert (Hproto : "__proto__" ∉ map property_key [Sample.master; Sample.app1; Sample.app2]).
  { apply (bool_decide_unpack _). vm_compute. exact I. }
  split; [exact Hnd | split].
  - apply (bundleSteal_omits_master _ (Sample.configuration (JBool true) JUndefined)
             Hnd Hproto); reflexivity.
  - apply (bundleSteal_omits_master _ (Sample.configuration (JBool false) JUndefined)
             Hnd Hproto); [reflexivity | apply elem_of_cons; now left].
Defined.

(** C8, as stated, fails when a later bundle carries the name of an earlier
    one: with [bundleSteal] false the earlier bundle is not in the
    manifest, its name being mapped to the modules of the later one. *)
Lemma bundleSteal_false_duplicate_name :
  truthy (Options.bundleSteal
            (Configuration.options (Sample.configuration (JBool false) (JStr "dist")))) = false
  /\ Sample.shared_a ∈ [Sample.shared_a; Sample.app1; Sample.shared_b]
  /\ bundlesConfig [Sample.shared_a; Sample.app1; Sample.shared_b]
                   (Sample.configuration (JBool false) (JStr "dist"))
     = [("bundles/shared", ["can/util"]); ("bundles/app1", ["app1"; "widget"])]
  /\ manifest_entry Sample.shared_a = ("bundles/shared", ["jquery"])
  /\ JsObject.get (property_key Sample.shared_a)
       (bundlesConfig [Sample.shared_a; Sample.app1; Sample.shared_b]
                      (Sample.configuration (JBool false) (JStr "dist")))
     <> Some (moduleNames Sample.shared_a).
Proof.
  split; [reflexivity | split; [apply elem_of_cons; now left |]].
  split; [reflexivity | split; [reflexivity | discriminate]].
Qed.

(** ** The emitter on the store of arrays *)

Lemma fresh_ref_unused (h : Heap.t) (r : Heap.ref) (l : list Bundle.t) :
  h !! r = Some l -> fresh (dom h) <> r.
Proof.
  intros Hr E. apply (is_fresh (dom h)). rewrite E.
  apply elem_of_dom. now exists l.
Qed.

(** C9.  Run on a store in which [bundles] denotes an array, the emitter
    returns its configuration node and leaves that array, and every other
    array of the store, as it was: the bundle that [bundleSteal] drops is
    dropped from a copy. *)
Theorem make_bundles_config_keeps_bundles (h : Heap.t) (bundles : Heap.ref)
    (elements : list Bundle.t) (configuration : Configuration.t) :
  h !! bundles = Some elements ->
  exists h',
    make_bundles_config_heap bundles configuration h
    = Some (make_bundles_config elements configuration, h')
    /\ h' !! bundles = Some elements
    /\ (forall r, is_Some (h !! r) -> h' !! r = h !! r).
Proof.
  intros Hb. pose proof (fresh_ref_unused h bundles elements Hb) as Hfresh.
  unfold make_bundles_config_heap, mbind, heap_bind, Heap.bind, Heap.slice0,
    Heap.read, Heap.alloc, Heap.shift, mret, heap_ret, Heap.ret.
  unfold Heap.bind. rewrite Hb. simpl.
  destruct (truthy (Options.bundleSteal (Configuration.options configuration))) eqn:Hs.
  - rewrite lookup_insert_eq. rewrite lookup_insert_eq.
    eexists. split; [| split].
    + unfold make_bundles_config, bundlesConfig, bundledBundles. rewrite Hs. reflexivity.
    + rewrite !lookup_insert_ne by exact Hfresh. exact Hb.
    + intros r [l Hr]. rewrite !lookup_insert_ne; [reflexivity | |];
        intros E; apply (fresh_ref_unused h r l Hr); exact E.
  - rewrite lookup_insert_eq.
    eexists. split; [| split].
    + unfold make_bundles_config, bundlesConfig, bundledBundles. rewrite Hs. reflexivity.
    + rewrite lookup_insert_ne by exact Hfresh. exact Hb.
    + intros r [l Hr]. rewrite lookup_insert_ne; [reflexivity |].
      intros E; apply (fresh_ref_unused h r l Hr); exact E.
Qed.

(** ** Traces of the build *)



Section Discipline.
Context (config : Config.t).















End Discipline.

Section BuildTraces.
Context (K : Collaborators) (config : Config.t).









End BuildTraces.

(** *** The run unfolded *)

Lemma multi_unfold (K : Collaborators) (config : Config.t)
    (options : option RawOptions.t) (w : World.t) :
  multi K config options w
  = match logging_setup K (assign_defaults options) with
    | Normal _ =>
        match build_chain K config (assign_defaults options) (minify_of options)
                (called CallLoggingSetup w) with
        | (Normal built, w1) => promise_catch built log_error w1
        | (Throw e, w1) => (Throw e, w1)
        end
    | Throw e => (Throw e, called CallLoggingSetup w)
    end.
Proof.
  unfold multi, mbind, M_bind, call, called, minify_of.
  now destruct (logging_setup K (assign_defaults options)).
Qed.

(** What the handler of the build makes of a settled chain. *)
Lemma promise_catch_log_error (p : Promise jsval) (w : World.t) :
  promise_catch p log_error w
  = match p with
    | Resolved v => (Normal (Resolved v), w)
    | Rejected e =>
        if nullish e
        then (Normal (Rejected (reading_message e)), w)
        else (Normal (Resolved JUndefined), logged (LogError e) w)
    end.
Proof.
  destruct p as [v | e]; simpl; [reflexivity |].
  unfold log_error. now destruct (nullish e).
Qed.

(** *** The phases of a run *)


Section Phases.
Context (K : Collaborators).





(** A call of a stage that the phase admits. *)
Lemma advances_stage {A : Type} (c : Call) (r : Completion A) (p q : Phase) (n : nat) :
  stage_rank c = Some n -> next_phase p n = Some q -> advances (call c r) p (eq q).
Proof.
  intros H Hn w. exists [c], q. unfold stages. simpl. rewrite H. simpl. rewrite Hn.
  repeat split.
Qed.


Lemma advances_weaken {A : Type} (m : M A) (p : Phase) (Q Q' : Phase -> Prop) :
  (forall q, Q q -> Q' q) -> advances m p Q -> advances m p Q'.
Proof.
  intros HQ Hm w. destruct (Hm w) as (cs & p' & E & R & H).
  exists cs, p'. repeat split; [exact E | exact R | intros a Ha; apply HQ, (H a Ha)].
Qed.





Local Ltac stage := eapply advances_stage; reflexivity.



End Phases.


Section Liveness.
Context (K : Collaborators).










End Liveness.








Example stages_of_a_full_run :
  stages (World.trace (snd (multi Sample.working (Sample.config JUndefined) None World.init)))
  = [0; 1; 1; 2; 3; 4; 4; 5; 5; 5; 5; 6]%nat.
Proof. vm_compute. reflexivity. Qed.

(** ** The depth given to the flattener *)







(** ** Errors *)

(** The chain of the build is settled or the call of [makeBundleGraph] has
    thrown: the callback given to [then] never throws past the promise. *)
Lemma build_chain_throws (K : Collaborators) (config : Config.t) (options : Options.t)
    (minify : bool) (w w' : World.t) (e : Error) :
  build_chain K config options minify w = (Throw e, w') ->
  makeBundleGraph K config = Throw e.
Proof.
  unfold build_chain, mbind, M_bind, call. simpl.
  destruct (makeBundleGraph K config) as [[data | e1] | e1]; simpl.
  - match goal with
    | |- context [build K config options minify data ?w0] =>
        destruct (build K config options minify data w0) as [[q | e2] w2]
    end; discriminate.
  - discriminate.
  - now intros [= -> _].
Qed.

(** C1, as amended.  An error raised inside the promise chain of the
    build, be it the rejection of graph construction or an exception
    thrown by a later stage, is not passed on to the caller: it is given
    to the handler of the build.  If it is neither [undefined] nor [null],
    the handler writes it to the log with [winston.error] and the returned
    promise resolves with [undefined].  If it is [undefined] or [null],
    the handler itself throws the [TypeError] of reading [message], nothing
    is logged, and the returned promise is rejected with that [TypeError];
    the returned promise is rejected in no other case.  Only an exception
    thrown by [logging.setup] or by the call of [makeBundleGraph] itself,
    before there is a promise, reaches the caller as an exception. *)
Theorem chain_errors_are_logged (K : Collaborators) (config : Config.t)
    (options : option RawOptions.t) (w : World.t) :
  (forall e' w', multi K config options w = (Normal (Rejected e'), w') ->
     exists e,
       nullish e = true
       /\ e' = reading_message e
       /\ logging_setup K (assign_defaults options) = Normal tt
       /\ build_chain K config (assign_defaults options) (minify_of options)
                      (called CallLoggingSetup w)
          = (Normal (Rejected e), w'))
  /\ (forall e w', multi K config options w = (Throw e, w') ->
        logging_setup K (assign_defaults options) = Throw e
        \/ makeBundleGraph K config = Throw e)
  /\ (forall e w1,
        logging_setup K (assign_defaults options) = Normal tt ->
        build_chain K config (assign_defaults options) (minify_of options)
                    (called CallLoggingSetup w)
        = (Normal (Rejected e), w1) ->
        multi K config options w
        = if nullish e
          then (Normal (Rejected (reading_message e)), w1)
          else (Normal (Resolved JUndefined), logged (LogError e) w1))
  /\ (forall e w0,
        makeBundleGraph K config = Normal (Rejected e) ->
        build_chain K config (assign_defaults options) (minify_of options) w0
        = (Normal (Rejected e), called CallMakeBundleGraph w0))
  /\ (forall data e w0 w1,
        makeBundleGraph K config = Normal (Resolved data) ->
        build K config (assign_defaults options) (minify_of options) data
              (called CallMakeBundleGraph w0)
        = (Throw e, w1) ->
        build_chain K config (assign_defaults options) (minify_of options) w0
        = (Normal (Rejected e), w1)).
Proof.
  split; [| split; [| split; [| split]]].
  - intros e' w'. rewrite multi_unfold.
    destruct (logging_setup K (assign_defaults options)) as [[] | e0]; [| discriminate].
    destruct (build_chain K config (assign_defaults options) (minify_of options)
                (called CallLoggingSetup w)) as [[built | e2] w2]; [| discriminate].
    rewrite promise_catch_log_error. destruct built as [v | e]; [discriminate |].
    destruct (nullish e) eqn:Hn; [| discriminate].
    intros [= <- <-]. now exists e.
  - intros e w'. rewrite multi_unfold.
    destruct (logging_setup K (assign_defaults options)) as [[] | e0];
      [| intros [= -> _]; now left].
    destruct (build_chain K config (assign_defaults options) (minify_of options)
                (called CallLoggingSetup w)) as [[built | e2] w2] eqn:E.
    + rewrite promise_catch_log_error.
      destruct built as [v | e1]; [discriminate |]. destruct (nullish e1); discriminate.
    + intros [= -> _]. right. exact (build_chain_throws _ _ _ _ _ _ _ E).
  - intros e w1 Hsetup H.
    rewrite multi_unfold, Hsetup, H, promise_catch_log_error. reflexivity.
  - intros e w0 H. unfold build_chain, mbind, M_bind, call, called. simpl.
    rewrite H. reflexivity.
  - intros data e w0 w1 Hg H. unfold build_chain, mbind, M_bind, call. simpl.
    rewrite Hg. simpl. unfold called in H. rewrite H. reflexivity.
Qed.

Lemma chain_errors_are_logged_witness :
  build_chain Sample.failing (Sample.config JUndefined) (assign_defaults None)
              (minify_of None) (called CallLoggingSetup World.init)
  = (Normal (Rejected Sample.boom),
     {| World.trace :=
          [CallLoggingSetup; CallMakeBundleGraph; CallHasES6; CallMakeConfiguration;
           CallPluck "@config"; CallPluck "@dev"; CallOrder "app1"; CallOrder "app2";
           CallTranspile; CallMinifyGraph; CallPluck "main"; CallPluckOnlyInBundle;
           CallMinifyGraph; CallMakeBundle];
        World.winston := [LogInfo "Minifying..."] |})
  /\ World.winston (snd (multi Sample.failing (Sample.config JUndefined) None World.init))
     = [LogInfo "Minifying..."; LogError Sample.boom]
  /\ fst (multi Fixture.rejecting (Sample.config JUndefined) None World.init)
     = Normal (Rejected (TypeError_undefined "message"))
  /\ World.winston (snd (multi Fixture.rejecting (Sample.config JUndefined) None
                           World.init))
     = [].
Proof.
  assert (H : build_chain Sample.failing (Sample.config JUndefined) (assign_defaults None)
                (minify_of None) (called CallLoggingSetup World.init)
              = (Normal (Rejected Sample.boom),
                 {| World.trace :=
                      [CallLoggingSetup; CallMakeBundleGraph; CallHasES6;
                       CallMakeConfiguration; CallPluck "@config"; CallPluck "@dev";
                       CallOrder "app1"; CallOrder "app2"; CallTranspile; CallMinifyGraph;
                       CallPluck "main"; CallPluckOnlyInBundle; CallMinifyGraph;
                       CallMakeBundle];
                    World.winston := [LogInfo "Minifying..."] |}))
    by (vm_compute; reflexivity).
  assert (H' : build_chain Fixture.rejecting (Sample.config JUndefined)
                 (assign_defaults None) (minify_of None)
                 (called CallLoggingSetup World.init)
               = (Normal (Rejected (Thrown JUndefined)),
                  {| World.trace := [CallLoggingSetup; CallMakeBundleGraph];
                     World.winston := [] |}))
    by (vm_compute; reflexivity).
  split; [exact H |].
  destruct (chain_errors_are_logged Sample.failing (Sample.config JUndefined) None
              World.init) as (_ & _ & Hlogged & _).
  destruct (chain_errors_are_logged Fixture.rejecting (Sample.config JUndefined) None
              World.init) as (_ & _ & Hrejected & _).
  rewrite (Hlogged _ _ eq_refl H), (Hrejected _ _ eq_refl H').
  repeat split.
Defined.

(** C1, as stated, fails: when [makeBundle] throws, the caller of the build
    is given neither an exception nor a rejected promise; the promise
    resolves with [undefined] and the error is only written to the log. *)
Lemma makeBundle_error_is_swallowed :
  makeBundle Sample.failing
    (filter (fun kv => fst kv <> "main")
       (filter (fun kv => fst kv <> "@dev")
          (filter (fun kv => fst kv <> "@config") Sample.graph)))
  = Throw Sample.boom
  /\ multi Sample.failing (Sample.config JUndefined) None World.init
     = (Normal (Resolved JUndefined),
        {| World.trace :=
             [CallLoggingSetup; CallMakeBundleGraph; CallHasES6; CallMakeConfiguration;
              CallPluck "@config"; CallPluck "@dev"; CallOrder "app1"; CallOrder "app2";
              CallTranspile; CallMinifyGraph; CallPluck "main"; CallPluckOnlyInBundle;
              CallMinifyGraph; CallMakeBundle];
           World.winston := [LogInfo "Minifying..."; LogError Sample.boom] |})
  /\ fst (multi Sample.failing (Sample.config JUndefined) None World.init)
     <> Throw Sample.boom
  /\ fst (multi Sample.failing (Sample.config JUndefined) None World.init)
     <> Normal (Rejected Sample.boom).
Proof.
  split; [reflexivity | split; [vm_compute; reflexivity |]].
  split; vm_compute; discriminate.
Qed.

Lemma make_bundles_config_keeps_bundles_witness :
  Sample.store !! 1%positive = Some [Sample.master; Sample.app1; Sample.app2]
  /\ exists h',
       make_bundles_config_heap 1%positive (Sample.configuration (JBool true) JUndefined)
                                Sample.store
       = Some (make_bundles_config [Sample.master; Sample.app1; Sample.app2]
                 (Sample.configuration (JBool true) JUndefined), h')
       /\ h' !! 1%positive = Some [Sample.master; Sample.app1; Sample.app2]
       /\ (forall r, is_Some (Sample.store !! r) -> h' !! r = Sample.store !! r).
Proof.
  assert (H : Sample.store !! 1%positive = Some [Sample.master; Sample.app1; Sample.app2])
    by reflexivity.
  split; [exact H |].
  exact (make_bundles_config_keeps_bundles Sample.store 1%positive _
           (Sample.configuration (JBool true) JUndefined) H).
Defined.

(** ** The extractor on identical graphs *)

Section Related.
Context {A : Type} (R : A -> A -> Prop).

End Related.

Section EnumerateRelated.
Context {V : Type} (R : string * V -> string * V -> Prop).
Context (R_key : forall a b, R a b -> fst a = fst b).




End EnumerateRelated.

Section ExtractorRelated.
Import Observed.
Implicit Types (ns : list (string * Node.t)) (k : gset string).


















End ExtractorRelated.






(** * Further properties *)

(** ** The manifest of any bundle list *)

Lemma get_set_proto {V : Type} (k : string) (v : V) (o : JsObject.t V) :
  JsObject.get "__proto__" (JsObject.set k v o) = JsObject.get "__proto__" o.
Proof.
  unfold JsObject.set. destruct (String.eqb_spec k "__proto__") as [E | Hne];
    [reflexivity | now apply get_define_ne].
Qed.

Lemma get_fill_proto (included : list Bundle.t) (o : JsObject.t (list string)) :
  JsObject.get "__proto__" (fill_bundlesConfig included o) = JsObject.get "__proto__" o.
Proof.
  revert o. unfold fill_bundlesConfig.
  induction included as [|b bs IH]; intros o; simpl; [reflexivity |].
  rewrite IH. apply get_set_proto.
Qed.

Lemma get_fill (k : string) (included : list Bundle.t) (o : JsObject.t (list string)) :
  k <> "__proto__" ->
  JsObject.get k (fill_bundlesConfig included o)
  = match last_named k included with
    | Some b => Some (moduleNames b)
    | None => JsObject.get k o
    end.
Proof.
  intros Hk. revert o. unfold fill_bundlesConfig.
  induction included as [|b bs IH]; intros o; simpl; [reflexivity |].
  rewrite IH. destruct (last_named k bs) as [b' |]; [reflexivity |].
  destruct (String.eqb_spec (property_key b) k) as [E | Hne].
  - rewrite set_not_proto by congruence. rewrite E. apply get_define_eq.
  - unfold JsObject.set. destruct (String.eqb (property_key b) "__proto__");
      [reflexivity | now apply get_define_ne].
Qed.

Lemma last_named_None (k : string) (bs : list Bundle.t) :
  last_named k bs = None <-> k ∉ map property_key bs.
Proof.
  induction bs as [|b bs IH]; simpl.
  - split; [intros _; apply not_elem_of_nil | reflexivity].
  - rewrite not_elem_of_cons, <- IH.
    destruct (last_named k bs) as [b' |].
    + split; [discriminate | intros [_ H]; discriminate].
    + destruct (String.eqb_spec (property_key b) k) as [E | Hne].
      * split; [discriminate | intros [H _]; congruence].
      * split; [intros _; split; [congruence | reflexivity] | reflexivity].
Qed.

(** X1.  Whatever the names of the bundles, the manifest maps a name to the
    modules of the last bundle written under it, and to nothing when no
    bundle written carries it; the key [__proto__] is never in the
    manifest. *)
Theorem manifest_last_bundle_wins (bundles : list Bundle.t)
    (configuration : Configuration.t) (k : string) :
  JsObject.get k (bundlesConfig bundles configuration)
  = if String.eqb k "__proto__" then None
    else moduleNames <$> last_named k (bundledBundles bundles configuration).
Proof.
  unfold bundlesConfig. destruct (String.eqb_spec k "__proto__") as [-> | Hk].
  - now rewrite get_fill_proto.
  - rewrite get_fill by exact Hk.
    now destruct (last_named k (bundledBundles bundles configuration)).
Qed.

Lemma keys_define {V : Type} (k : string) (v : V) (o : JsObject.t V) :
  JsObject.keys (JsObject.define k v o)
  = if decide (k ∈ JsObject.keys o) then JsObject.keys o else JsObject.keys o ++ [k].
Proof.
  induction o as [|[k' v'] o IH]; simpl.
  - destruct (decide (k ∈ [])) as [H | _]; [now apply elem_of_nil in H | reflexivity].
  - destruct (String.eqb_spec k k') as [-> | Hne]; simpl.
    + destruct (decide (k' ∈ k' :: JsObject.keys o)) as [_ | H]; [reflexivity |].
      exfalso. apply H, elem_of_cons. now left.
    + rewrite IH. destruct (decide (k ∈ JsObject.keys o)) as [Hin | Hout].
      * destruct (decide (k ∈ k' :: JsObject.keys o)) as [_ | H]; [reflexivity |].
        exfalso. apply H, elem_of_cons. now right.
      * destruct (decide (k ∈ k' :: JsObject.keys o)) as [H | _]; [| reflexivity].
        apply elem_of_cons in H as [H | H]; contradiction.
Qed.

Lemma NoDup_keys_set {V : Type} (k : string) (v : V) (o : JsObject.t V) :
  NoDup (JsObject.keys o) -> NoDup (JsObject.keys (JsObject.set k v o)).
Proof.
  intros Hnd. unfold JsObject.set. destruct (String.eqb k "__proto__"); [exact Hnd |].
  rewrite keys_define. destruct (decide (k ∈ JsObject.keys o)) as [Hin | Hout];
    [exact Hnd |].
  apply NoDup_app. split; [exact Hnd | split].
  - intros x Hx Hx'. apply list_elem_of_singleton in Hx' as ->. contradiction.
  - apply NoDup_singleton.
Qed.

Lemma NoDup_keys_fill (included : list Bundle.t) (o : JsObject.t (list string)) :
  NoDup (JsObject.keys o) -> NoDup (JsObject.keys (fill_bundlesConfig included o)).
Proof.
  revert o. unfold fill_bundlesConfig.
  induction included as [|b bs IH]; intros o Hnd; simpl; [exact Hnd |].
  apply IH. now apply NoDup_keys_set.
Qed.

(** X2.  The manifest never holds a name twice, and its keys are exactly
    the names of the bundles written to it, the name [__proto__] apart. *)
Theorem manifest_keys (bundles : list Bundle.t) (configuration : Configuration.t) :
  NoDup (JsObject.keys (bundlesConfig bundles configuration))
  /\ forall k,
       k ∈ JsObject.keys (bundlesConfig bundles configuration)
       <-> (k <> "__proto__"
            /\ k ∈ map property_key (bundledBundles bundles configuration)).
Proof.
  split.
  - unfold bundlesConfig. apply NoDup_keys_fill. constructor.
  - intros k. unfold bundlesConfig.
    destruct (decide (k ∈ JsObject.keys
                (fill_bundlesConfig (bundledBundles bundles configuration)
                                    JsObject.empty))) as [Hin | Hout].
    + split; [intros _ | intros _; exact Hin].
      assert (Hget : JsObject.get k
                (fill_bundlesConfig (bundledBundles bundles configuration)
                                    JsObject.empty) <> None)
        by (intros E; now apply get_None_keys in E).
      destruct (String.eqb_spec k "__proto__") as [-> | Hk].
      * now rewrite get_fill_proto in Hget.
      * split; [exact Hk |]. rewrite get_fill in Hget by exact Hk.
        destruct (decide (k ∈ map property_key (bundledBundles bundles configuration)))
          as [H | H]; [exact H |].
        apply last_named_None in H. now rewrite H in Hget.
    + split; [contradiction | intros [Hk Hnamed]]. exfalso.
      apply get_None_keys in Hout. rewrite get_fill in Hout by exact Hk.
      destruct (last_named k (bundledBundles bundles configuration)) eqn:E;
        [discriminate |].
      now apply last_named_None in E.
Qed.

(** X3.  When no bundle is left to write, because the list is empty or
    because its only bundle is the one [bundleSteal] drops, the emitter does
    not fail: the text assigns the empty object. *)
Theorem manifest_of_nothing (configuration : Configuration.t) :
  Node.minifiedSource (make_bundles_config [] configuration)
  = Some (getBundlesPaths configuration +:+ "System.bundles = {};")
  /\ forall b,
       truthy (Options.bundleSteal (Configuration.options configuration)) = true ->
       Node.minifiedSource (make_bundles_config [b] configuration)
       = Some (getBundlesPaths configuration +:+ "System.bundles = {};").
Proof.
  split.
  - unfold make_bundles_config, bundlesConfig, bundledBundles, shift, slice0. simpl.
    now destruct (truthy (Options.bundleSteal (Configuration.options configuration))).
  - intros b Hsteal.
    unfold make_bundles_config, bundlesConfig, bundledBundles, shift, slice0.
    rewrite Hsteal. reflexivity.
Qed.

(** ** What a run calls and logs *)

Section Keeps.
Context (P : Call -> Prop) (L : LogEntry -> Prop).

Lemma keeps_ret {A : Type} (a : A) : keeps (mret a) P L.
Proof. intros w. exists [], []. simpl. rewrite !app_nil_r. repeat split; constructor. Qed.

Lemma keeps_throw {A : Type} (e : Error) : keeps (@throw A e) P L.
Proof. intros w. exists [], []. simpl. rewrite !app_nil_r. repeat split; constructor. Qed.

Lemma keeps_log (entry : LogEntry) : L entry -> keeps (winston_log entry) P L.
Proof.
  intros H w. exists [], [entry]. simpl. rewrite app_nil_r.
  repeat split; repeat constructor. exact H.
Qed.

Lemma keeps_call {A : Type} (c : Call) (r : Completion A) : P c -> keeps (call c r) P L.
Proof.
  intros H w. exists [c], []. simpl. rewrite app_nil_r.
  repeat split; repeat constructor. exact H.
Qed.

Lemma keeps_bind {A B : Type} (m : M A) (k : A -> M B) :
  keeps m P L ->
  (forall a w w', m w = (Normal a, w') -> keeps (k a) P L) ->
  keeps (m ≫= k) P L.
Proof.
  intros Hm Hk w. unfold mbind, M_bind.
  destruct (Hm w) as (c1 & l1 & Ec & El & Hc & Hl).
  destruct (m w) as [[a | e] w1] eqn:E; simpl in *.
  - destruct (Hk a w w1 E w1) as (c2 & l2 & Ec2 & El2 & Hc2 & Hl2).
    exists (c1 ++ c2), (l1 ++ l2). rewrite Ec2, El2, Ec, El, !app_assoc.
    repeat split; apply Forall_app; now split.
  - exists c1, l1. now repeat split.
Qed.

(** Binding the result of a call: what follows knows what the collaborator
    returned. *)
Lemma keeps_call_bind {A B : Type} (c : Call) (r : Completion A) (k : A -> M B) :
  P c ->
  (forall a, r = Normal a -> keeps (k a) P L) ->
  keeps (call c r ≫= k) P L.
Proof.
  intros Hc Hk. apply keeps_bind; [now apply keeps_call |].
  intros a w w' E. apply Hk. unfold call in E. congruence.
Qed.

Lemma keeps_then {A B : Type} (g : Promise A) (f : A -> M (Promise B)) :
  (forall a, g = Resolved a -> keeps (f a) P L) -> keeps (promise_then g f) P L.
Proof.
  intros Hf. destruct g as [a | e]; simpl; [| apply keeps_ret].
  intros w. destruct (Hf a eq_refl w) as (cs & ls & Ec & El & Hc & Hl).
  exists cs, ls. destruct (f a w) as [[q | e] w1]; simpl in *; now repeat split.
Qed.

Lemma keeps_forEach {A S : Type} (f : S -> A -> M S) (l : list A) (s : S) :
  (forall s x, x ∈ l -> keeps (f s x) P L) -> keeps (forEach f l s) P L.
Proof.
  revert s. induction l as [|x l IH]; intros s Hf; simpl; [apply keeps_ret |].
  apply keeps_bind.
  - apply Hf, elem_of_cons. now left.
  - intros s' _ _ _. apply IH. intros s0 y Hy. apply Hf, elem_of_cons. now right.
Qed.

Lemma keeps_forEach_element {A : Type} (f : A -> M A) (l : list A) :
  (forall x, keeps (f x) P L) -> keeps (forEach_element f l) P L.
Proof.
  intros Hf. induction l as [|x l IH]; simpl; [apply keeps_ret |].
  apply keeps_bind; [apply Hf | intros x' _ _ _].
  apply keeps_bind; [exact IH | intros l' _ _ _; apply keeps_ret].
Qed.
End Keeps.

Lemma keeps_weaken {A : Type} (m : M A) (P P' : Call -> Prop) (L L' : LogEntry -> Prop) :
  (forall c, P c -> P' c) -> (forall entry, L entry -> L' entry) ->
  keeps m P L -> keeps m P' L'.
Proof.
  intros HP HL Hm w. destruct (Hm w) as (cs & ls & Ec & El & Hc & Hl).
  exists cs, ls. repeat split; [exact Ec | exact El | |];
    eapply Forall_impl; eauto.
Qed.

(** *** Runs that return *)

Lemma bind_Normal_inv {A B : Type} (m : M A) (k : A -> M B) (w w' : World.t) (b : B) :
  (m ≫= k) w = (Normal b, w') ->
  exists a w1, m w = (Normal a, w1) /\ k a w1 = (Normal b, w').
Proof.
  unfold mbind, M_bind. destruct (m w) as [[a | e] w1]; [| discriminate].
  intros H. now exists a, w1.
Qed.

Lemma call_Normal_inv {A : Type} (c : Call) (r : Completion A) (w w' : World.t) (a : A) :
  call c r w = (Normal a, w') -> r = Normal a /\ w' = called c w.
Proof. unfold call, called. intros [= -> <-]. now split. Qed.

Lemma optional_call_inv {A : Type} (b : bool) (c : Call) (r : Completion A) (a0 a : A)
    (w w' : World.t) :
  (if b then call c r else mret a0) w = (Normal a, w') ->
  w' = {| World.trace := World.trace w ++ (if b then [c] else []);
          World.winston := World.winston w |}.
Proof.
  destruct b.
  - intros H. apply call_Normal_inv in H as [_ ->]. reflexivity.
  - intros [= _ <-]. rewrite app_nil_r. now destruct w.
Qed.

Lemma optional_log_inv (b : bool) (entry : LogEntry) (w w' : World.t) (u : unit) :
  (if b then winston_log entry else mret tt) w = (Normal u, w') ->
  w' = {| World.trace := World.trace w;
          World.winston := World.winston w ++ (if b then [entry] else []) |}.
Proof.
  destruct u. destruct b; intros H; injection H as <-; [reflexivity |].
  rewrite app_nil_r. now destruct w.
Qed.

Lemma forEach_calls_inv {A S : Type} (c : A -> Call) (f : S -> A -> Completion S)
    (l : list A) (s s' : S) (w w' : World.t) :
  forEach (fun s x => call (c x) (f s x)) l s w = (Normal s', w') ->
  w' = {| World.trace := World.trace w ++ map c l; World.winston := World.winston w |}.
Proof.
  revert s w w'. induction l as [|x l IH]; intros s w w'; simpl.
  - intros [= _ <-]. rewrite app_nil_r. now destruct w.
  - intros H. apply bind_Normal_inv in H as (s1 & w1 & Hc & H).
    apply call_Normal_inv in Hc as [_ ->]. apply IH in H. rewrite H. simpl.
    now rewrite <- app_assoc.
Qed.

Lemma forEach_element_calls_inv {A : Type} (c : Call) (f : A -> Completion A)
    (l l' : list A) (w w' : World.t) :
  forEach_element (fun x => call c (f x)) l w = (Normal l', w') ->
  w' = {| World.trace := World.trace w ++ replicate (length l) c;
          World.winston := World.winston w |}
  /\ Forall2 (fun x x' => f x = Normal x') l l'.
Proof.
  revert l' w w'. induction l as [|x l IH]; intros l' w w'; simpl.
  - intros [= <- <-]. rewrite app_nil_r. split; [now destruct w | constructor].
  - intros H. apply bind_Normal_inv in H as (x' & w1 & Hc & H).
    apply call_Normal_inv in Hc as [Hx ->].
    apply bind_Normal_inv in H as (l1 & w2 & Hl & H).
    apply IH in Hl as [-> Hl]. injection H as <- <-. simpl. split.
    + now rewrite <- app_assoc.
    + now constructor.
Qed.

Section Guards.
Context (K : Collaborators) (config : Config.t).

Local Ltac guarded_call name :=
  apply keeps_call_bind; [simpl; auto | intros name ?].

Lemma build_guarded (options : Options.t) (minify : bool) (data : Data.t) :
  keeps (build K config options minify data)
        (guarded K config options minify data) (build_logs minify).
Proof.
  unfold build, make_named_bundles, split_and_name, order_bundles.
  guarded_call hasES6modules.
  guarded_call configuration.
  guarded_call plucked. destruct plucked as [stealconfig g1].
  guarded_call plucked. destruct plucked as [dev g2].
  apply keeps_bind.
  { apply keeps_forEach. intros s x Hx. apply keeps_call. exact Hx. }
  intros g3 _ _ _.
  guarded_call g4.
  apply keeps_bind.
  { destruct minify; [now apply keeps_call | apply keeps_ret]. }
  intros g5 _ _ _.
  guarded_call plucked. destruct plucked as [mainNodes g6].
  guarded_call g7.
  apply keeps_bind.
  { destruct minify; [apply keeps_log; now split | apply keeps_ret]. }
  intros _ _ _ _.
  apply keeps_bind.
  { destruct minify; [now apply keeps_call | apply keeps_ret]. }
  intros masterNodes _ _ _.
  apply keeps_bind.
  { guarded_call extracted. destruct extracted as [bundles g8].
    guarded_call flat.
    guarded_call splitBundles.
    guarded_call splitMaster.
    apply keeps_bind; [| intros named _ _ _; apply keeps_ret].
    apply keeps_forEach_element. intros b. now apply keeps_call. }
  intros [splitMaster splitBundles] w0 w0' Hnamed.
  assert (Hsplit : exists masterBundle, splitByBuildType K [masterBundle] = Normal splitMaster).
  { apply bind_Normal_inv in Hnamed as ([bundles g8] & w2 & _ & Hc).
    apply bind_Normal_inv in Hc as (flat & w3 & _ & Hc).
    apply bind_Normal_inv in Hc as (split0 & w4 & _ & Hc).
    apply bind_Normal_inv in Hc as (splitMaster' & w5 & Hd & Hc).
    apply call_Normal_inv in Hd as [Hd _].
    apply bind_Normal_inv in Hc as (named' & w6 & _ & Hc).
    injection Hc as <- _ _. eauto. }
  guarded_call configNode.
  destruct splitMaster as [|m0 rest]; [apply keeps_throw |].
  destruct splitBundles as [|masterJS others]; [apply keeps_throw |].
  apply keeps_bind.
  { destruct (truthy (Options.bundleSteal options)) eqn:Hsteal;
      [apply keeps_call; exact Hsteal | apply keeps_ret]. }
  intros masterJS' _ _ _.
  apply keeps_bind.
  { destruct hasES6modules; [apply keeps_call; simpl; assumption | apply keeps_ret]. }
  intros masterJS'' _ _ _.
  apply keeps_call. simpl. destruct Hsplit as [masterBundle Hsplit]. eauto.
Qed.

Lemma build_chain_guarded (options : option RawOptions.t) :
  keeps (build_chain K config (assign_defaults options) (minify_of options))
        (guarded_run K config options) (build_logs (minify_of options)).
Proof.
  unfold build_chain. apply keeps_call_bind; [exact I |].
  intros graphReady Hready. apply keeps_then. intros data ->.
  apply (keeps_weaken _ (guarded K config (assign_defaults options) (minify_of options) data)
           _ (build_logs (minify_of options))); [| auto | apply build_guarded].
  intros c Hc. destruct c; simpl in *; try contradiction; now exists data.
Qed.

Lemma multi_guarded (options : option RawOptions.t) (w : World.t) :
  exists cs ls,
    World.trace (snd (multi K config options w)) = World.trace w ++ cs
    /\ World.winston (snd (multi K config options w)) = World.winston w ++ ls
    /\ Forall (guarded_run K config options) cs
    /\ Forall (run_logs K config options w) ls.
Proof.
  rewrite multi_unfold.
  destruct (logging_setup K (assign_defaults options)) as [[] | e].
  - destruct (build_chain_guarded options (called CallLoggingSetup w))
      as (cs & ls & Ec & El & Hc & Hl).
    unfold run_logs.
    destruct (build_chain K config (assign_defaults options) (minify_of options)
                (called CallLoggingSetup w)) as [[built | e] w1]; simpl in *.
    + rewrite promise_catch_log_error.
      destruct built as [v | e]; [| destruct (nullish e)]; simpl.
      * exists (CallLoggingSetup :: cs), ls. rewrite Ec, El, <- app_assoc.
        repeat split; [now constructor |].
        eapply Forall_impl; [exact Hl | intros entry H; now left].
      * exists (CallLoggingSetup :: cs), ls. rewrite Ec, El, <- app_assoc.
        repeat split; [now constructor |].
        eapply Forall_impl; [exact Hl | intros entry H; now left].
      * exists (CallLoggingSetup :: cs), (ls ++ [LogError e]).
        rewrite Ec, El, <- !app_assoc. repeat split; [now constructor |].
        apply Forall_app. split.
        -- eapply Forall_impl; [exact Hl | intros entry H; now left].
        -- constructor; [| constructor]. right. now exists e.
    + exists (CallLoggingSetup :: cs), ls. rewrite Ec, El, <- app_assoc.
      repeat split; [now constructor |].
      eapply Forall_impl; [exact Hl | intros entry H; now left].
  - exists [CallLoggingSetup], []. simpl. rewrite app_nil_r.
    repeat split; repeat constructor.
Qed.
End Guards.

(** ** A callback that runs to its end *)

(** What is known of a callback that has returned. *)
Lemma build_Normal_inv (K : Collaborators) (config : Config.t) (options : Options.t)
    (minify : bool) (data : Data.t) (w w' : World.t) (p : Promise jsval) :
  build K config options minify data w = (Normal p, w') ->
  exists (es6 : bool) (masterBundle master : Bundle.t) (splitMaster splitBundles : list Bundle.t)
         (written : list Bundle.t) (configuration : Configuration.t),
    hasES6 K (Data.graph data) = Normal es6
    /\ splitByBuildType K [masterBundle] = Normal (master :: splitMaster)
    /\ writeBundles K written configuration = Normal p
    /\ length written = S (length splitMaster + length splitBundles)
    /\ World.trace w'
       = World.trace w
         ++ calls_of_success config options minify data es6
              (S (length splitMaster + length splitBundles))
    /\ World.winston w'
       = World.winston w ++ (if minify then [LogInfo "Minifying..."] else []).
Proof.
  intros H. unfold build in H.
  apply bind_Normal_inv in H as (es6 & w1 & Hc & H).
  apply call_Normal_inv in Hc as [Hes6 ->].
  apply bind_Normal_inv in H as (configuration & w1 & Hc & H).
  apply call_Normal_inv in Hc as [_ ->].
  apply bind_Normal_inv in H as ([stealconfig g1] & w1 & Hc & H).
  apply call_Normal_inv in Hc as [_ ->].
  apply bind_Normal_inv in H as ([dev g2] & w1 & Hc & H).
  apply call_Normal_inv in Hc as [_ ->].
  apply bind_Normal_inv in H as (g3 & w1 & Hc & H).
  unfold order_bundles in Hc. apply forEach_calls_inv in Hc as ->.
  apply bind_Normal_inv in H as (g4 & w1 & Hc & H).
  apply call_Normal_inv in Hc as [_ ->].
  apply bind_Normal_inv in H as (g5 & w1 & Hc & H).
  apply optional_call_inv in Hc as ->.
  apply bind_Normal_inv in H as ([mainNodes g6] & w1 & Hc & H).
  apply call_Normal_inv in Hc as [_ ->].
  apply bind_Normal_inv in H as (g7 & w1 & Hc & H).
  apply call_Normal_inv in Hc as [_ ->].
  apply bind_Normal_inv in H as (u & w1 & Hc & H).
  apply optional_log_inv in Hc as ->.
  apply bind_Normal_inv in H as (masterNodes & w1 & Hc & H).
  apply optional_call_inv in Hc as ->.
  apply bind_Normal_inv in H as ([splitMaster named] & w1 & Hc & H).
  unfold make_named_bundles, split_and_name in Hc.
  apply bind_Normal_inv in Hc as ([bundles g8] & w2 & Hd & Hc).
  apply call_Normal_inv in Hd as [_ ->].
  apply bind_Normal_inv in Hc as (flat & w2 & Hd & Hc).
  apply call_Normal_inv in Hd as [_ ->].
  apply bind_Normal_inv in Hc as (splitBundles & w2 & Hd & Hc).
  apply call_Normal_inv in Hd as [_ ->].
  apply bind_Normal_inv in Hc as (splitMaster' & w2 & Hd & Hc).
  apply call_Normal_inv in Hd as [Hsplit ->].
  apply bind_Normal_inv in Hc as (named' & w2 & Hd & Hc).
  apply forEach_element_calls_inv in Hd as [-> Hnamed].
  injection Hc as <- <- <-.
  apply bind_Normal_inv in H as (configNode & w1 & Hc & H).
  apply call_Normal_inv in Hc as [_ ->].
  destruct splitMaster' as [|master rest]; [discriminate |].
  destruct named' as [|masterJS others]; [discriminate |].
  apply bind_Normal_inv in H as (masterJS' & w1 & Hc & H).
  apply optional_call_inv in Hc as ->.
  apply bind_Normal_inv in H as (masterJS'' & w1 & Hc & H).
  apply optional_call_inv in Hc as ->.
  apply call_Normal_inv in H as [Hwrite ->].
  apply Forall2_length in Hnamed. rewrite length_app in Hnamed. simpl in Hnamed.
  eexists es6, _, master, rest, splitBundles, (masterJS'' :: others), configuration.
  split; [exact Hes6 |]. split; [exact Hsplit |]. split; [exact Hwrite |].
  split; [simpl; lia |]. split.
  - unfold calls_of_success, called. simpl. rewrite length_app. simpl.
    rewrite <- !app_assoc. reflexivity.
  - unfold called. simpl. reflexivity.
Qed.



(** X5.  When [splitByBuildType] returns no bundle for the master bundle,
    the callback of the build does not return: it throws (at the latest
    when it reads the nodes of the missing master bundle), and no run calls
    [writeBundles]. *)
Theorem empty_master_split_fails (K : Collaborators) (config : Config.t)
    (options : option RawOptions.t) (data : Data.t) (w : World.t) :
  (forall b, splitByBuildType K [b] = Normal []) ->
  (exists e, fst (build K config (assign_defaults options) (minify_of options) data w)
             = Throw e)
  /\ CallWriteBundles ∉ World.trace (snd (multi K config options World.init)).
Proof.
  intros Hempty. split.
  - destruct (build K config (assign_defaults options) (minify_of options) data w)
      as [[p | e] w'] eqn:E; [| now exists e].
    destruct (build_Normal_inv K config _ _ data w w' p E)
      as (es6 & masterBundle & master & splitMaster & _ & _ & _ & _ & Hsplit & _).
    rewrite Hempty in Hsplit. discriminate.
  - destruct (multi_guarded K config options World.init) as (cs & ls & Ec & _ & Hc & _).
    rewrite Ec. simpl. intros Hin. rewrite Forall_forall in Hc.
    destruct (Hc _ Hin) as (data' & _ & masterBundle & master & rest & Hsplit).
    rewrite Hempty in Hsplit. discriminate.
Qed.

Lemma empty_master_split_fails_witness :
  (exists e, fst (build Fixture.unsplit (Sample.config JUndefined) (assign_defaults None)
                    (minify_of None) Sample.data World.init) = Throw e)
  /\ fst (build Fixture.unsplit (Sample.config JUndefined) (assign_defaults None)
            (minify_of None) Sample.data World.init)
     = Throw (TypeError_undefined "nodes").
Proof.
  split; [| vm_compute; reflexivity].
  apply (empty_master_split_fails Fixture.unsplit (Sample.config JUndefined) None
           Sample.data World.init).
  intros b. reflexivity.
Defined.

Lemma minify_of_false (options : option RawOptions.t) :
  minify_of options = false
  <-> exists o, options = Some o /\ RawOptions.minify o = Some (JBool false).
Proof.
  unfold minify_of, strict_not_equal, assign_defaults. split.
  - destruct options as [o |]; simpl; [| discriminate].
    destruct (RawOptions.minify o) as [v |] eqn:E; simpl; [| discriminate].
    destruct v as [| | [|] | n | s]; simpl; try discriminate.
    intros _. now exists o.
  - intros (o & -> & E). rewrite E. reflexivity.
Qed.

(** X6.  Minification is off only when [options.minify] is the boolean
    [false]: left out, [undefined], [null], zero or an empty string leave
    it on.  When it is off no run calls [minifyGraph] or logs the notice
    of minification. *)
Theorem minify_only_unless_false (K : Collaborators) (config : Config.t)
    (options : option RawOptions.t) :
  (minify_of options = false
   <-> exists o, options = Some o /\ RawOptions.minify o = Some (JBool false))
  /\ (minify_of options = false ->
      (CallMinifyGraph ∉ World.trace (snd (multi K config options World.init)))
      /\ (LogInfo "Minifying..."
          ∉ World.winston (snd (multi K config options World.init)))).
Proof.
  split; [apply minify_of_false |]. intros Hoff.
  destruct (multi_guarded K config options World.init) as (cs & ls & Ec & El & Hc & Hl).
  rewrite Ec, El. simpl.
  pose proof (proj1 (Forall_forall _ _) Hc) as Hcalls.
  pose proof (proj1 (Forall_forall _ _) Hl) as Hlogs.
  split; intros Hin.
  - destruct (Hcalls _ Hin) as (data & _ & Hon). simpl in Hon. congruence.
  - destruct (Hlogs _ Hin) as [[_ Hon] | (e & He & _)]; [congruence | discriminate].
Qed.

(** X7.  A run calls [addStealToBundle] only if [options.bundleSteal] is
    set (holds a value taken for true); with the options left out it never
    does. *)
Theorem steal_added_only_if_asked (K : Collaborators) (config : Config.t)
    (options : option RawOptions.t) :
  (CallAddStealToBundle ∈ World.trace (snd (multi K config options World.init)) ->
   truthy (Options.bundleSteal (assign_defaults options)) = true)
  /\ (options = None ->
      CallAddStealToBundle ∉ World.trace (snd (multi K config options World.init))).
Proof.
  assert (Hguard : CallAddStealToBundle
                   ∈ World.trace (snd (multi K config options World.init)) ->
                   truthy (Options.bundleSteal (assign_defaults options)) = true).
  { destruct (multi_guarded K config options World.init) as (cs & ls & Ec & _ & Hc & _).
    rewrite Ec. simpl. intros Hin. rewrite Forall_forall in Hc.
    now destruct (Hc _ Hin) as (data & _ & Hsteal). }
  split; [exact Hguard |].
  intros -> Hin. specialize (Hguard Hin). discriminate.
Qed.

(** X8.  A run calls [addTraceurRuntime] only if the graph construction
    resolved and [hasES6] answered true for the graph as it was resolved,
    before anything was plucked from it or transpiled. *)
Theorem traceur_added_only_for_es6 (K : Collaborators) (config : Config.t)
    (options : option RawOptions.t) :
  CallAddTraceurRuntime ∈ World.trace (snd (multi K config options World.init)) ->
  exists data,
    makeBundleGraph K config = Normal (Resolved data)
    /\ hasES6 K (Data.graph data) = Normal true.
Proof.
  destruct (multi_guarded K config options World.init) as (cs & ls & Ec & _ & Hc & _).
  rewrite Ec. simpl. intros Hin. rewrite Forall_forall in Hc.
  destruct (Hc _ Hin) as (data & Hdata & Hes6). now exists data.
Qed.


(** X10.  A run writes to the log nothing but the notice of minification,
    and that only with minification on, and an error, and that only if the
    promise chain was rejected with this very error. *)
Theorem log_entries_of_a_run (K : Collaborators) (config : Config.t)
    (options : option RawOptions.t) (entry : LogEntry) :
  entry ∈ World.winston (snd (multi K config options World.init)) ->
  (entry = LogInfo "Minifying..." /\ minify_of options = true)
  \/ exists e,
       entry = LogError e
       /\ fst (build_chain K config (assign_defaults options) (minify_of options)
                           (called CallLoggingSetup World.init))
          = Normal (Rejected e).
Proof.
  destruct (multi_guarded K config options World.init) as (cs & ls & _ & El & _ & Hl).
  rewrite El. simpl. intros Hin.
  exact (proj1 (Forall_forall _ _) Hl _ Hin).
Qed.

(** ** The names and destinations of the cjs helper *)

Lemma string_app_assoc (a b c : string) : (a +:+ b) +:+ c = a +:+ (b +:+ c).
Proof. induction a as [|x a IH]; simpl; [reflexivity | now rewrite IH]. Qed.

Lemma indexOf_from_bounds (from : Z) (sub s : string) :
  indexOf_from from sub s = -1 \/ from <= indexOf_from from sub s.
Proof.
  revert from; induction s as [|c s IH]; intros from; simpl.
  - destruct (prefixb sub ""); [right | left]; lia.
  - destruct (prefixb sub (String c s)); [right; lia |].
    destruct (IH (from + 1)) as [H | H]; [now left | right; lia].
Qed.

Lemma indexOf_absent (s sub : string) : indexOf s sub = -1 <-> ~ occurs sub s.
Proof.
  rewrite <- indexOf_occurs. unfold indexOf.
  destruct (indexOf_from_bounds 0 sub s) as [H | H]; lia.
Qed.

Lemma indexOf_at_start (s sub : string) : indexOf s sub = 0 <-> prefixb sub s = true.
Proof.
  unfold indexOf. destruct s as [|c s]; simpl.
  - destruct (prefixb sub ""); split; (reflexivity || discriminate).
  - destruct (prefixb sub (String c s)); [split; reflexivity |].
    split; [| discriminate]. destruct (indexOf_from_bounds (0 + 1) sub s); lia.
Qed.

Section StringParts.
Import CjsNames.

Lemma last_char_snoc (pre : string) (c : ascii) :
  last_char (pre +:+ String c EmptyString) = Some c.
Proof.
  induction pre as [|x pre IH]; simpl; [reflexivity |].
  rewrite IH. now destruct pre.
Qed.

Lemma last_char_Some (s : string) (c : ascii) :
  last_char s = Some c -> exists pre, s = pre +:+ String c EmptyString.
Proof.
  induction s as [|x s IH]; simpl; [discriminate |].
  destruct s as [|y s].
  - intros [= ->]. now exists "".
  - intros H. destruct (IH H) as [pre ->]. now exists (String x pre).
Qed.

Lemma split_nonempty (sep : ascii) (s : string) : split sep s <> [].
Proof.
  destruct s as [|c s]; simpl; [discriminate |].
  destruct (Ascii.eqb c sep); [discriminate |].
  destruct (split sep s); discriminate.
Qed.

Lemma split_snoc_sep (sep : ascii) (pre : string) :
  split sep (pre +:+ String sep EmptyString) = split sep pre ++ [EmptyString].
Proof.
  induction pre as [|c pre IH]; simpl.
  - now rewrite Ascii.eqb_refl.
  - rewrite IH. destruct (Ascii.eqb c sep); [reflexivity |].
    pose proof (split_nonempty sep pre) as Hne.
    destruct (split sep pre) as [|h t]; [contradiction | reflexivity].
Qed.

Lemma join_split (sep : ascii) (s : string) :
  JSON.join (String sep EmptyString) (split sep s) = s.
Proof.
  induction s as [|c s IH]; simpl; [reflexivity |].
  pose proof (split_nonempty sep s) as Hne.
  destruct (Ascii.eqb_spec c sep) as [-> | Hc].
  - destruct (split sep s) as [|h t]; [contradiction |]. simpl in *. now rewrite IH.
  - destruct (split sep s) as [|h t]; [contradiction |].
    destruct t; simpl in *; now rewrite <- IH.
Qed.

Lemma join_snoc (sep : string) (l : list string) (x : string) :
  l <> [] -> JSON.join sep (l ++ [x]) = JSON.join sep l +:+ sep +:+ x.
Proof.
  induction l as [|y l IH]; [contradiction | intros _].
  destruct l as [|z l]; [reflexivity |].
  change (JSON.join sep ((y :: z :: l) ++ [x]))
    with (y +:+ sep +:+ JSON.join sep ((z :: l) ++ [x])).
  rewrite IH by discriminate.
  change (JSON.join sep (y :: z :: l)) with (y +:+ sep +:+ JSON.join sep (z :: l)).
  now rewrite !string_app_assoc.
Qed.

Lemma repeat_last_but_one_snoc (l : list string) (x : string) :
  l <> [] ->
  exists previous rest,
    rev l = previous :: rest /\ repeat_last_but_one (l ++ [x]) = l ++ [previous].
Proof.
  intros Hne. unfold repeat_last_but_one. rewrite rev_app_distr. simpl.
  destruct (rev l) as [|previous rest] eqn:E.
  - exfalso. apply Hne. rewrite <- (rev_involutive l), E. reflexivity.
  - exists previous, rest. split; [reflexivity |].
    simpl. rewrite <- (rev_involutive l), E. simpl. now rewrite <- app_assoc.
Qed.

(** A name that ends in a slash is completed by the part before the slash. *)
Lemma complete_trailing_slash (pre : string) :
  JSON.join "/" (repeat_last_but_one (split "/" (pre +:+ "/")))
  = pre +:+ "/" +:+ last_segment pre.
Proof.
  rewrite split_snoc_sep.
  destruct (repeat_last_but_one_snoc (split "/" pre) "" (split_nonempty _ _))
    as (previous & rest & Hrev & ->).
  rewrite join_snoc by apply split_nonempty.
  rewrite join_split. unfold last_segment. now rewrite Hrev.
Qed.

Lemma prefixb_dot_slash (pre x : string) :
  prefixb "./" (pre +:+ "/" +:+ x) = prefixb "./" (pre +:+ "/").
Proof.
  destruct pre as [|c pre]; [reflexivity |].
  change (Ascii.eqb "." c && prefixb "/" (pre +:+ "/" +:+ x)
          = Ascii.eqb "." c && prefixb "/" (pre +:+ "/")).
  f_equal. destruct pre as [|d pre]; [reflexivity |].
  change (Ascii.eqb "/" d && true = Ascii.eqb "/" d && true). reflexivity.
Qed.

Lemma prefixb_app (p rest : string) : prefixb p (p +:+ rest) = true.
Proof. apply prefixb_spec. now exists rest. Qed.

Lemma drop_chars_app (p rest : string) :
  drop_chars (String.length p) (p +:+ rest) = rest.
Proof. induction p as [|c p IH]; simpl; [now destruct rest | exact IH]. Qed.

Lemma remove_first_unfold (p s : string) :
  remove_first p s
  = if prefixb p s then drop_chars (String.length p) s
    else match s with
         | EmptyString => EmptyString
         | String c s' => String c (remove_first p s')
         end.
Proof. destruct s; reflexivity. Qed.

Lemma remove_first_prefix (p rest : string) : remove_first p (p +:+ rest) = rest.
Proof. rewrite remove_first_unfold, prefixb_app. apply drop_chars_app. Qed.

Lemma remove_first_absent (p s : string) : ~ occurs p s -> remove_first p s = s.
Proof.
  induction s as [|c s IH]; intros Hno; simpl.
  - destruct (prefixb p "") eqn:E; [| reflexivity].
    exfalso. apply Hno. apply prefixb_spec in E as [post E]. now exists "", post.
  - destruct (prefixb p (String c s)) eqn:E.
    + exfalso. apply Hno. apply prefixb_spec in E as [post E]. now exists "", post.
    + rewrite IH; [reflexivity |]. intros (pre & post & ->).
      apply Hno. now exists (String c pre), post.
Qed.
End StringParts.

Section CjsNamesFacts.
Import CjsNames.
Context (P : Platform) (B : BaseHelper).

Lemma ends_in_slash (s : string) :
  is_char (last_char s) "/" = true <-> exists pre, s = pre +:+ "/".
Proof.
  split.
  - destruct (last_char s) as [c |] eqn:E; simpl; [| discriminate].
    intros Hc. apply Ascii.eqb_eq in Hc as ->. now apply last_char_Some.
  - intros [pre ->]. rewrite last_char_snoc. reflexivity.
Qed.

Lemma starts_with_dot_slash (s : string) :
  (indexOf s "./" =? 0) = true <-> exists rest, s = "./" +:+ rest.
Proof. now rewrite Z.eqb_eq, indexOf_at_start, prefixb_spec. Qed.

Lemma in_node_modules (depLoad curLoad : Cjs.Load.t) :
  occurs "node_modules" (Cjs.Load.address depLoad)
  \/ occurs "node_modules" (Cjs.Load.address curLoad) ->
  (indexOf (Cjs.Load.address depLoad) "node_modules" =? -1)
  && (indexOf (Cjs.Load.address curLoad) "node_modules" =? -1) = false.
Proof.
  intros H. apply andb_false_iff.
  destruct H as [H | H]; [left | right]; apply Z.eqb_neq; now rewrite indexOf_absent.
Qed.
End CjsNamesFacts.

(** X11.  A dependency that has no alias, is named without a trailing slash
    and not relatively, and is loaded from or required by a module under
    [node_modules], keeps its name. *)
Theorem normalize_keeps_package_names (P : CjsNames.Platform) (B : CjsNames.BaseHelper)
    (aliases : string -> option string) (depName curName : string)
    (depLoad curLoad : Cjs.Load.t) :
  CjsNames.alias_of aliases depName = None ->
  occurs "node_modules" (Cjs.Load.address depLoad)
  \/ occurs "node_modules" (Cjs.Load.address curLoad) ->
  ~ (exists pre, depName = pre +:+ "/") ->
  ~ (exists rest, depName = "./" +:+ rest) ->
  CjsNames.normalize P B aliases depName depLoad curName curLoad = depName.
Proof.
  intros Halias Hnm Hslash Hrel. unfold CjsNames.normalize.
  rewrite Halias, (in_node_modules depLoad curLoad Hnm).
  destruct (CjsNames.is_char (CjsNames.last_char depName) "/") eqn:E.
  - exfalso. now apply Hslash, ends_in_slash.
  - destruct (indexOf depName "./" =? 0) eqn:E'; [| reflexivity].
    exfalso. now apply Hrel, starts_with_dot_slash.
Qed.

Lemma normalize_keeps_package_names_witness :
  CjsNames.normalize simple_platform simple_base no_aliases "lodash"
    (load_at "/app/node_modules/lodash/lodash.js") "main" (load_at "/app/lib/main.js")
  = "lodash".
Proof.
  apply (normalize_keeps_package_names simple_platform simple_base no_aliases
           "lodash" "main" (load_at "/app/node_modules/lodash/lodash.js")
           (load_at "/app/lib/main.js")).
  - reflexivity.
  - left. now exists "/app/", "/lodash/lodash.js".
  - intros [pre H]. apply (f_equal CjsNames.last_char) in H.
    rewrite last_char_snoc in H. vm_compute in H. discriminate.
  - intros [rest H]. discriminate.
Defined.

(** X12.  A dependency of a module under [node_modules] that is named with
    a trailing slash, without alias and not relatively, is given the name
    of its last directory as file name: [dir/] becomes [dir/dir]. *)
Theorem normalize_completes_directory_names (P : CjsNames.Platform)
    (B : CjsNames.BaseHelper) (aliases : string -> option string)
    (pre curName : string) (depLoad curLoad : Cjs.Load.t) :
  CjsNames.alias_of aliases (pre +:+ "/") = None ->
  occurs "node_modules" (Cjs.Load.address depLoad)
  \/ occurs "node_modules" (Cjs.Load.address curLoad) ->
  ~ (exists rest, pre +:+ "/" = "./" +:+ rest) ->
  CjsNames.normalize P B aliases (pre +:+ "/") depLoad curName curLoad
  = pre +:+ "/" +:+ CjsNames.last_segment pre.
Proof.
  intros Halias Hnm Hrel. unfold CjsNames.normalize.
  rewrite Halias, (in_node_modules depLoad curLoad Hnm).
  rewrite (proj2 (ends_in_slash (pre +:+ "/"))) by now exists pre.
  rewrite complete_trailing_slash.
  destruct (indexOf (pre +:+ "/" +:+ CjsNames.last_segment pre) "./" =? 0) eqn:E;
    [| reflexivity].
  exfalso. apply Hrel. apply prefixb_spec.
  rewrite <- (prefixb_dot_slash pre (CjsNames.last_segment pre)).
  now apply indexOf_at_start, Z.eqb_eq.
Qed.

Lemma normalize_completes_directory_names_witness :
  CjsNames.normalize simple_platform simple_base no_aliases ("can/util" +:+ "/")
    (load_at "/app/node_modules/can/util/util.js") "main" (load_at "/app/lib/main.js")
  = "can/util" +:+ "/" +:+ "util".
Proof.
  apply (normalize_completes_directory_names simple_platform simple_base no_aliases
           "can/util" "main" (load_at "/app/node_modules/can/util/util.js")
           (load_at "/app/lib/main.js")).
  - reflexivity.
  - left. now exists "/app/", "/can/util/util.js".
  - intros [rest H]. discriminate.
Defined.

(** X13.  For two modules outside [node_modules] and a dependency without
    alias, the name asked for does not count: the result is made of the
    path from the directory of the requiring module to the dependency.  If
    that path is not empty and does not end in a slash, the result is the
    path itself when
    it starts with a dot but not with [./], and otherwise the directory of
    the path (with [./] put in front when it does not start with a dot)
    followed by the base name of the dependency. *)
Theorem normalize_relative_names (P : CjsNames.Platform) (B : CjsNames.BaseHelper)
    (aliases : string -> option string) (depName curName : string)
    (depLoad curLoad : Cjs.Load.t) :
  CjsNames.alias_of aliases depName = None ->
  ~ occurs "node_modules" (Cjs.Load.address depLoad) ->
  ~ occurs "node_modules" (Cjs.Load.address curLoad) ->
  CjsNames.path_relative P (CjsNames.path_dirname P (Cjs.Load.address curLoad))
                           (Cjs.Load.address depLoad) <> "" ->
  ~ (exists pre,
       CjsNames.path_relative P (CjsNames.path_dirname P (Cjs.Load.address curLoad))
                                (Cjs.Load.address depLoad) = pre +:+ "/") ->
  CjsNames.normalize P B aliases depName depLoad curName curLoad
  = let relative :=
      CjsNames.path_relative P (CjsNames.path_dirname P (Cjs.Load.address curLoad))
                               (Cjs.Load.address depLoad) in
    if CjsNames.is_char (CjsNames.first_char relative) "."
    then if prefixb "./" relative
         then CjsNames.path_dirname P relative +:+ "/" +:+ CjsNames.basename B depLoad
         else relative
    else CjsNames.path_dirname P ("./" +:+ relative) +:+ "/" +:+ CjsNames.basename B depLoad.
Proof.
  intros Halias Hdep Hcur Hne Hslash. unfold CjsNames.normalize. rewrite Halias.
  apply indexOf_absent, Z.eqb_eq in Hdep, Hcur. rewrite Hdep, Hcur.
  cbv zeta. cbn [andb].
  set (relative := CjsNames.path_relative P _ _) in *.
  destruct (CjsNames.is_char (CjsNames.first_char relative) ".") eqn:Hdot; cbn [negb].
  - destruct (CjsNames.is_char (CjsNames.last_char relative) "/") eqn:E.
    { exfalso. now apply Hslash, ends_in_slash. }
    destruct (prefixb "./" relative) eqn:Hp.
    + now rewrite (proj2 (Z.eqb_eq _ _) (proj2 (indexOf_at_start _ _) Hp)).
    + destruct (indexOf relative "./" =? 0) eqn:E'; [| reflexivity].
      apply Z.eqb_eq, indexOf_at_start in E'. congruence.
  - destruct (CjsNames.is_char (CjsNames.last_char ("./" +:+ relative)) "/") eqn:E.
    { exfalso. apply ends_in_slash in E as [pre E].
      destruct relative as [|c r]; [contradiction |].
      apply Hslash. destruct pre as [|a pre]; [discriminate |].
      destruct pre as [|b pre]; [discriminate |].
      injection E as _ _ E. now exists pre. }
    now rewrite (proj2 (Z.eqb_eq _ _) (proj2 (indexOf_at_start ("./" +:+ relative) "./")
                                         (prefixb_app "./" relative))).
Qed.

Lemma normalize_relative_names_witness :
  CjsNames.normalize simple_platform simple_base no_aliases "util/util"
    (load_at "/app/lib/util/util.js") "main" (load_at "/app/lib/main.js")
  = "./util/util.js".
Proof.
  apply (normalize_relative_names simple_platform simple_base no_aliases
           "util/util" "main" (load_at "/app/lib/util/util.js")
           (load_at "/app/lib/main.js")).
  - reflexivity.
  - apply indexOf_absent. reflexivity.
  - apply indexOf_absent. reflexivity.
  - vm_compute. discriminate.
  - intros H. apply (proj2 (ends_in_slash _)) in H. vm_compute in H. discriminate.
Defined.

(** X14.  A module without alias is sent below [root/dist], where [root]
    defaults to the working directory and [dist] to [dist/cjs]: when its
    directory, the file protocol removed, lies under [root], to the path of
    that directory below [root] and the base name of the module; when
    [root] does not occur in that directory, to the whole directory and the
    base name. *)
Theorem dest_below_dist (P : CjsNames.Platform) (B : CjsNames.BaseHelper)
    (aliases : string -> option string) (root dist : option string)
    (moduleName : string) (moduleData : jsval) (load : Cjs.Load.t) :
  CjsNames.alias_of aliases moduleName = None ->
  (forall rest,
     CjsNames.removeFileProtocol B (CjsNames.path_dirname P (Cjs.Load.address load))
     = CjsNames.or_default root (CjsNames.process_cwd P) +:+ rest ->
     CjsNames.dest P B aliases root dist moduleName moduleData load
     = CjsNames.path_join P
         [CjsNames.or_default root (CjsNames.process_cwd P);
          CjsNames.or_default dist "dist/cjs"; rest; CjsNames.basename B load])
  /\ (~ occurs (CjsNames.or_default root (CjsNames.process_cwd P))
               (CjsNames.removeFileProtocol B
                  (CjsNames.path_dirname P (Cjs.Load.address load))) ->
      CjsNames.dest P B aliases root dist moduleName moduleData load
      = CjsNames.path_join P
          [CjsNames.or_default root (CjsNames.process_cwd P);
           CjsNames.or_default dist "dist/cjs";
           CjsNames.removeFileProtocol B
             (CjsNames.path_dirname P (Cjs.Load.address load));
           CjsNames.basename B load]).
Proof.
  intros Halias. unfold CjsNames.dest. rewrite Halias. split.
  - intros rest ->. now rewrite remove_first_prefix.
  - intros Hout. now rewrite remove_first_absent.
Qed.

Lemma dest_below_dist_witness :
  CjsNames.dest simple_platform simple_base no_aliases None (Some "out")
    "util/util" JUndefined (load_at "file:/app/lib/util/util.js")
  = CjsNames.path_join simple_platform ["/app"; "out"; "/lib/util"; "util.js"].
Proof.
  apply (dest_below_dist simple_platform simple_base no_aliases None (Some "out")
           "util/util" JUndefined (load_at "file:/app/lib/util/util.js") eq_refl).
  reflexivity.
Defined.

Lemma traceur_added_only_for_es6_witness :
  exists data,
    makeBundleGraph Fixture.with_es6 (Sample.config JUndefined) = Normal (Resolved data)
    /\ hasES6 Fixture.with_es6 (Data.graph data) = Normal true.
Proof.
  apply (traceur_added_only_for_es6 Fixture.with_es6 (Sample.config JUndefined) None).
  apply (bool_decide_unpack _). vm_compute. exact I.
Defined.

Lemma log_entries_of_a_run_witness :
  (LogError Sample.boom = LogInfo "Minifying..." /\ minify_of None = true)
  \/ exists e,
       LogError Sample.boom = LogError e
       /\ fst (build_chain Sample.failing (Sample.config JUndefined) (assign_defaults None)
                 (minify_of None) (called CallLoggingSetup World.init))
          = Normal (Rejected e).
Proof.
  apply (log_entries_of_a_run Sample.failing (Sample.config JUndefined) None).
  assert (E : World.winston
                (snd (multi Sample.failing (Sample.config JUndefined) None World.init))
              = [LogInfo "Minifying..."; LogError Sample.boom])
    by (vm_compute; reflexivity).
  rewrite E. apply elem_of_cons. right. apply elem_of_cons. now left.
Defined.

(** ** The order of the manifest text *)

Lemma indexed_without_indices {V : Type} (o : list (string * V)) :
  Forall (fun kv => JsObject.array_index (fst kv) = None) o ->
  JsObject.indexed o = [].
Proof.
  intros H. unfold JsObject.indexed.
  induction H as [|[k v] o Hk H IH]; [reflexivity |].
  simpl in Hk. cbn [omap list_omap fst]. rewrite Hk. exact IH.
Qed.

Lemma named_without_indices {V : Type} (o : list (string * V)) :
  Forall (fun kv => JsObject.array_index (fst kv) = None) o ->
  JsObject.named o = o.
Proof.
  intros H. unfold JsObject.named.
  induction H as [|[k v] o Hk H IH]; [reflexivity |].
  rewrite filter_cons. destruct (decide _) as [_ | Hno]; [| contradiction].
  now rewrite IH.
Qed.

Lemma enumerate_without_indices {V : Type} (o : list (string * V)) :
  Forall (fun kv => JsObject.array_index (fst kv) = None) o ->
  JsObject.enumerate o = o.
Proof.
  intros H. unfold JsObject.enumerate.
  now rewrite (indexed_without_indices o H), (named_without_indices o H).
Qed.

(** X15.  When the bundles written to the manifest have pairwise distinct
    names, none of them [__proto__] and none an array index (a decimal
    numeral), the text lists them in the order of the bundle list: it is
    the prefix, [System.bundles = {], the members of the bundles in order
    with commas between them, and [};]. *)
Theorem manifest_text_in_bundle_order (bundles : list Bundle.t)
    (configuration : Configuration.t) :
  NoDup (map property_key (bundledBundles bundles configuration)) ->
  "__proto__" ∉ map property_key (bundledBundles bundles configuration) ->
  Forall (fun b => JsObject.array_index (property_key b) = None)
         (bundledBundles bundles configuration) ->
  Node.minifiedSource (make_bundles_config bundles configuration)
  = Some (getBundlesPaths configuration +:+ "System.bundles = "
          +:+ ("{" +:+ JSON.join ","
                 (map (fun b => JSON.quote (property_key b) +:+ ":"
                                +:+ JSON.array (moduleNames b))
                      (bundledBundles bundles configuration))
               +:+ "}")
          +:+ ";").
Proof.
  intros Hnd Hproto Hnames. unfold make_bundles_config. simpl.
  rewrite (bundlesConfig_distinct bundles configuration Hnd Hproto).
  unfold JSON.stringify. rewrite enumerate_without_indices.
  - now rewrite map_map.
  - induction Hnames as [|b bs Hb Hnames IH]; simpl; constructor; auto.
    apply IH.
    + simpl in Hnd. now apply NoDup_cons in Hnd.
    + simpl in Hproto. now apply not_elem_of_cons in Hproto.
Qed.

Lemma manifest_text_in_bundle_order_witness :
  Node.minifiedSource
    (make_bundles_config [Sample.master; Sample.app2; Sample.app1]
       (Sample.configuration (JBool false) JUndefined))
  = Some ("System.bundles = {"
          +:+ JSON.quote "bundles/main" +:+ ":" +:+ JSON.array ["@config"; "main"] +:+ ","
          +:+ JSON.quote "bundles/app2" +:+ ":" +:+ JSON.array ["app2"] +:+ ","
          +:+ JSON.quote "bundles/app1" +:+ ":" +:+ JSON.array ["app1"; "widget"]
          +:+ "};").
Proof.
  rewrite (manifest_text_in_bundle_order [Sample.master; Sample.app2; Sample.app1]
             (Sample.configuration (JBool false) JUndefined)).
  - vm_compute. reflexivity.
  - apply (bool_decide_unpack _). vm_compute. exact I.
  - apply (bool_decide_unpack _). vm_compute. exact I.
  - repeat constructor.
Defined.
